(** * Agent tools: paging, run metadata and chat-export chunking

    A shallow embedding of the Python tools under
    [implementation/instructions/tools]:

    - [ai_agent_tool_vscode_handover.py]: [VSCodeChatExtractor.export_to_markdown]
      (block construction, the single-file / chunk-mode split and file naming);
    - [ai_agent_tool_view.py]: [main] (the result window and the "more" line);
    - [ai_agent_tool_find.py], [ai_agent_tool_grep.py]: [main] (the result
      list and the metadata handed to [persist_results]);
    - [ai_agent_tool_copy.py]: [main] (date parsing and exit status);
    - [ai_agent_tool_vscode_handover.py]: [derive_session_id] and [main];
      [ai_agent_tool_antigravity_handover.py], [ai_agent_tool_archive.py]
      and [ai_agent_tool_list.py]: [main].

    Python integers are [Z]; strings are [string] read as sequences of code
    points below 256; an exception is represented by its message. The
    interpreter is CPython 3.11 with its defaults; in particular a
    conversion between [int] and [str] is limited to 4300 digits. *)

From Stdlib Require Import ZArith List String Ascii Bool Lia.
From Stdlib Require DecimalString DecimalNat DecimalPos DecimalFacts QArith.
From stdpp Require Import base list strings gmap.

Import ListNotations.
#[local] Set Warnings "-register-all".
Local Open Scope string_scope.
Local Open Scope list_scope.
Local Open Scope Z_scope.

(** ** Python values and exceptions *)

Module Py.

(** The outcome of a Python expression: a value, or a raised exception
    (kept as the text [str(e)]). *)
Inductive result (A : Type) : Type :=
| Ok (a : A)
| Raise (e : string).
Arguments Ok {A} a.
Arguments Raise {A} e.

Definition bind {A B} (r : result A) (k : A -> result B) : result B :=
  match r with
  | Ok a => k a
  | Raise e => Raise e
  end.

#[export] Instance result_bind : MBind result := fun A B k r => bind r k.

(** [for x in xs: acc = f acc x], stopping at the first exception. *)
Fixpoint foldM {A B} (f : B -> A -> result B) (acc : B) (xs : list A) : result B :=
  match xs with
  | [] => Ok acc
  | x :: xs' => acc' ← f acc x; foldM f acc' xs'
  end.

(** What [json.load] returns. *)
Inductive json : Type :=
| JNull
| JBool (b : bool)
| JNum (q : QArith_base.Q)
| JStr (s : string)
| JArr (items : list json)
| JObj (fields : list (string * json)).

(** Truth value of an object, as tested by [if v:] and [not v]. *)
Definition truthy (v : json) : bool :=
  match v with
  | JNull => false
  | JBool b => b
  | JNum q => negb (Z.eqb (QArith_base.Qnum q) 0)
  | JStr s => negb (String.eqb s "")
  | JArr items => match items with [] => false | _ => true end
  | JObj fields => match fields with [] => false | _ => true end
  end.

Fixpoint assoc (key : string) (fields : list (string * json)) : option json :=
  match fields with
  | [] => None
  | (k, v) :: rest => if String.eqb k key then Some v else assoc key rest
  end.

(** [v.get(key, default)]: only a dict has [get]. *)
Definition get (v : json) (key : string) (default : json) : result json :=
  match v with
  | JObj fields =>
      Ok (match assoc key fields with Some x => x | None => default end)
  | _ => Raise "AttributeError: object has no attribute 'get'"
  end.

(** The items a [for] loop over [v] visits: the elements of a list, the
    keys of a dict, the characters of a string. *)
Definition iter (v : json) : result (list json) :=
  match v with
  | JArr items => Ok items
  | JObj fields => Ok (map (fun kv => JStr (fst kv)) fields)
  | JStr s => Ok (map (fun c => JStr (String c EmptyString)) (list_ascii_of_string s))
  | _ => Raise "TypeError: object is not iterable"
  end.

(** [str.count('\n')]. *)
Fixpoint count_nl (s : string) : nat :=
  match s with
  | EmptyString => O
  | String c rest =>
      if Ascii.eqb c "010"%char then S (count_nl rest) else count_nl rest
  end.

(** [c.isspace()] for code points below 256. *)
Definition isspace (c : ascii) : bool :=
  let n := nat_of_ascii c in
  ((9 <=? n) && (n <=? 13) || (28 <=? n) && (n <=? 32)
   || (n =? 133) || (n =? 160))%nat.

(** Truth value of [s.strip()]: some character is not white space. *)
Fixpoint strip_nonempty (s : string) : bool :=
  match s with
  | EmptyString => false
  | String c rest => negb (isspace c) || strip_nonempty rest
  end.

(** ["".join(parts)]. *)
Definition join (parts : list string) : string :=
  fold_right String.append "" parts.

(** [str(n)] for a natural number. *)
Definition str_nat (n : nat) : string :=
  DecimalString.NilZero.string_of_uint (Nat.to_uint n).

(** [str(z)] for an integer. *)
Definition str_Z (z : Z) : string :=
  DecimalString.NilZero.string_of_int (Z.to_int z).

(** [sys.get_int_max_str_digits()], at its default: the most digits a
    conversion between [int] and [str] in base 10 accepts. *)
Definition int_max_str_digits : Z := 4300.

(** [str(z)] and [f"{z}"] for an integer that comes from the command
    line or from a file: the conversion raises [ValueError] when the
    number has more decimal digits, the sign not counted, than the
    limit. [str_nat] and [str_Z] are kept for counters and lengths, which
    stay far below it. *)
Definition str_int (z : Z) : result string :=
  let s := str_Z z in
  let digits := (String.length s - (if Z.ltb z 0 then 1 else 0))%nat in
  if Z.of_nat digits >? int_max_str_digits
  then Raise "Exceeds the limit (4300 digits) for integer string conversion; use sys.set_int_max_str_digits() to increase the limit"
  else Ok s.

Fixpoint zeros (n : nat) : string :=
  match n with
  | O => ""
  | S n' => String "0"%char (zeros n')
  end.

(** [f"{n:03d}"] for a natural number: zero-padded to width 3. *)
Definition fmt_03d (n : nat) : string :=
  let digits := str_nat n in
  zeros (3 - String.length digits) +:+ digits.

End Py.

Import Py.

(** ** [ai_agent_tool_vscode_handover.py]: [VSCodeChatExtractor] *)

Module Handover.

(** A [pathlib.Path] as the code reads it: [str(p.parent)] and
    [p.name]. *)
Record Path : Type := mkPath {
  parent : string;
  name : string
}.

(** [s.rfind('.')]: the index of the last ['.'], [None] for [-1]. *)
Fixpoint rfind_dot (s : string) : option nat :=
  match s with
  | EmptyString => None
  | String c rest =>
      match rfind_dot rest with
      | Some i => Some (S i)
      | None => if Ascii.eqb c "."%char then Some O else None
      end
  end.

(** [s[:i]] and [s[i:]]. *)
Fixpoint str_take (i : nat) (s : string) : string :=
  match i, s with
  | S i', String c rest => String c (str_take i' rest)
  | _, _ => EmptyString
  end.

Fixpoint str_drop (i : nat) (s : string) : string :=
  match i, s with
  | S i', String _ rest => str_drop i' rest
  | _, _ => s
  end.

(** Where pathlib cuts a name into [stem] and [suffix]: at its last
    ['.'], provided [0 < i < len(name) - 1]. *)
Definition suffix_index (nm : string) : option nat :=
  match rfind_dot nm with
  | Some i =>
      if ((0 <? i) && (i <? String.length nm - 1))%nat then Some i else None
  | None => None
  end.

(** [p.suffix]. *)
Definition suffix (p : Path) : string :=
  match suffix_index (name p) with
  | Some i => str_drop i (name p)
  | None => ""
  end.

(** [p.stem]. *)
Definition stem (p : Path) : string :=
  match suffix_index (name p) with
  | Some i => str_take i (name p)
  | None => name p
  end.

(** One [open(fname, 'w')] followed by [out.write(header + "".join(blks))];
    the blocks are kept apart so that their grouping can be read back. A
    file whose write failed half-way is listed with what it holds as its
    header, and no block. *)
Record File : Type := mkFile {
  f_path : Path;
  f_header : string;
  f_blocks : list string
}.

Definition f_content (f : File) : string := f_header f +:+ join (f_blocks f).

(** How [with open(fname, 'w') as out: out.write(text)] goes. *)
Inductive write_result : Type :=
| Written                               (* the file holds the text *)
| OpenFails (e : string)                (* [open] raises: no file is made or changed *)
| WriteFails (e : string) (kept : string).
    (* [open] has made or emptied the file, then [out.write] or the
       closing of the file raises; the file stays, holding [kept] *)

(** What [export_to_markdown] reads from outside its arguments. *)
Record world : Type := mkWorld {
  json_name : string;            (* json_path.name *)
  read_json : result json;       (* open(json_path) and json.load(f) *)
  now : nat -> string;           (* str(datetime.now()) at the n-th file *)
  py_str : json -> string;       (* str(v) of a value that is not a string *)
  write_file : Path -> write_result  (* how opening and writing the file goes *)
}.

(** Whether opening and writing the file works. *)
Definition write_ok (w : world) (p : Path) : bool :=
  match write_file w p with
  | Written => true
  | _ => false
  end.

(** [f"{v}"]. *)
Definition fmt (w : world) (v : json) : string :=
  match v with
  | JStr s => s
  | _ => py_str w v
  end.

(** [b_lines = block.count('\n')]. *)
Definition b_lines (block : string) : Z := Z.of_nat (count_nl block).

(** [sum(b.count('\n') for b in blocks)]. *)
Definition total_lines (blocks : list string) : Z :=
  fold_right (fun b acc => b_lines b + acc) 0 blocks.

(** The body of [for resp in responses]. *)
Definition add_response (full_response_text : string) (resp : json) : result string :=
  val ← get resp "value" (JStr "");
  if truthy val then
    match val with
    | JStr s => Ok (full_response_text +:+ s)
    | _ => Raise "TypeError: can only concatenate str to str"
    end
  else Ok full_response_text.

(** The body of [for req in requests]: the block of one request. *)
Definition build_block (w : world) (req : json) : result string :=
  message_obj ← get req "message" (JObj []);
  message ← get message_obj "text" (JStr "");
  let user_part := String "010" (String "010" "## User" +:+ String "010" (fmt w message)) in
  responses ← get req "response" (JArr []);
  resp_items ← iter responses;
  full_response_text ← foldM add_response "" resp_items;
  let assistant_part :=
    if negb (String.eqb full_response_text "") && strip_nonempty full_response_text
    then [String "010" (String "010" "## Assistant" +:+ String "010" full_response_text)]
    else [] in
  Ok (join ([user_part] ++ assistant_part ++ [String "010" (String "010" "---")])).

(** [blocks], after the loop over [requests]. *)
Definition build_blocks (w : world) (requests : json) : result (list string) :=
  reqs ← iter requests;
  foldM (fun blocks req => b ← build_block w req; Ok (blocks ++ [b])) [] reqs.

(** [output_file.parent / f"{base_stem}_part{idx:03d}{output_file.suffix}"]. *)
Definition part_path (output_file : Path) (idx : nat) : Path :=
  {| parent := parent output_file;
     name := stem output_file +:+ "_part" +:+ fmt_03d idx +:+ suffix output_file |}.

(** [flush_chunk(idx, blks)]: the file it writes; its path is the value
    it returns. *)
Definition flush_chunk (w : world) (output_file : Path) (idx : nat) (blks : list string) : File :=
  {| f_path := part_path output_file idx;
     f_header := "# VS Code Chat History (Part " +:+ str_nat idx +:+ ")" +:+
                 String "010" ("Source: " +:+ json_name w) +:+
                 String "010" ("Date: " +:+ now w idx) +:+
                 String "010" "---" +:+ String "010" "";
     f_blocks := blks |}.

(** The chunk-mode loop [for block in blocks] with the final flush, as
    the sequence of [flush_chunk(idx, blks)] calls it makes. Writing the
    file is the only effect of a call and nothing in the loop reads it
    back, so the calls are listed here and carried out by [write_all]. *)
Fixpoint chunk_loop (chunk_size : Z) (blocks : list string)
    (current_chunk_idx : nat) (current_lines : Z) (current_blocks : list string)
    : list (nat * list string) :=
  match blocks with
  | [] =>
      match current_blocks with
      | [] => []
      | _ => [(current_chunk_idx, current_blocks)]
      end
  | block :: rest =>
      if (current_lines + b_lines block >? chunk_size) && (current_lines >? 0)
      then (current_chunk_idx, current_blocks)
           :: chunk_loop chunk_size rest (S current_chunk_idx) (b_lines block) [block]
      else chunk_loop chunk_size rest current_chunk_idx
             (current_lines + b_lines block) (current_blocks ++ [block])
  end.

(** The files [export_to_markdown] sets out to write for [blocks], in
    order: one file named [output_file] in single-file mode, the flushed
    parts in chunk mode. *)
Definition plan_files (w : world) (output_file : Path) (chunk_size : Z)
    (blocks : list string) : list File :=
  if total_lines blocks <=? chunk_size then
    [ {| f_path := output_file;
         f_header := "# VS Code Chat History (Auto-Extracted)" +:+
                     String "010" ("Source: " +:+ json_name w) +:+
                     String "010" ("Date: " +:+ now w 0) +:+
                     String "010" "---";
         f_blocks := blocks |} ]
  else
    map (fun c => flush_chunk w output_file (fst c) (snd c))
        (chunk_loop chunk_size blocks 1 0 []).

(** The [try] body up to the first write: [Ok []] is the early
    [return []]. *)
Definition export_plan (w : world) (output_file : Path) (chunk_size : Z)
    : result (list File) :=
  data ← read_json w;
  requests ← get data "requests" (JArr []);
  if negb (truthy requests) then Ok []
  else
    blocks ← build_blocks w requests;
    Ok (plan_files w output_file chunk_size blocks).

(** The file a failed [out.write] leaves behind. *)
Definition left_behind (f : File) (kept : string) : File :=
  {| f_path := f_path f; f_header := kept; f_blocks := [] |}.

(** The writes, in order; the first one that fails raises and leaves the
    earlier files on disk, and the failing file too when [open] had
    already made or emptied it. Returns [created_files] and the files on
    disk. *)
Fixpoint write_all (w : world) (files : list File) (written : list File)
    : result (list Path) * list File :=
  match files with
  | [] => (Ok [], written)
  | f :: rest =>
      match write_file w (f_path f) with
      | Written =>
          match write_all w rest (written ++ [f]) with
          | (Ok created, written') => (Ok (f_path f :: created), written')
          | (Raise e, written') => (Raise e, written')
          end
      | OpenFails e => (Raise e, written)
      | WriteFails e kept => (Raise e, written ++ [left_behind f kept])
      end
  end.

(** The result of a call: the returned list, the files on disk after it,
    and what it printed on standard output. *)
Record outcome : Type := mkOutcome {
  returned : list Path;
  written : list File;
  printed : list string
}.

(** [VSCodeChatExtractor.export_to_markdown(json_path, output_file, chunk_size)]. *)
Definition export_to_markdown (w : world) (output_file : Path) (chunk_size : Z) : outcome :=
  match export_plan w output_file chunk_size with
  | Raise e => {| returned := []; written := []; printed := ["Failed to export chat: " +:+ e] |}
  | Ok files =>
      match write_all w files [] with
      | (Ok created_files, fs) => {| returned := created_files; written := fs; printed := [] |}
      | (Raise e, fs) => {| returned := []; written := fs; printed := ["Failed to export chat: " +:+ e] |}
      end
  end.

(** The groups of blocks of a list of files: the chunks. *)
Definition chunks_of (files : list File) : list (list string) := map f_blocks files.

(** [split(blocks, max_weight)]: the chunks the export makes of [blocks]. *)
Definition split (chunk_size : Z) (blocks : list string) : list (list string) :=
  if total_lines blocks <=? chunk_size then [blocks]
  else map snd (chunk_loop chunk_size blocks 1 0 []).

End Handover.

(** ** Processes and command lines *)

Module Proc.

(** What a finished tool process leaves behind. *)
Record proc : Type := mkProc {
  exit_code : Z;
  stdout : list string;
  stderr : list string
}.

(** [parser.parse_args()] either returns the namespace or prints a usage
    message on the error stream and exits with status 2. *)
Definition usage_error (tool_name reason : string) : proc :=
  {| exit_code := 2;
     stdout := [];
     stderr := ["usage: " +:+ tool_name; tool_name +:+ ": error: " +:+ reason] |}.




(** An exception nobody catches: the traceback goes to the error stream
    and the interpreter exits with status 1. *)
Definition uncaught (out : list string) (e : string) : proc :=
  {| exit_code := 1;
     stdout := out;
     stderr := ["Traceback (most recent call last):"; e] |}.

Definition is_digit (c : ascii) : bool :=
  let n := nat_of_ascii c in ((48 <=? n) && (n <=? 57))%nat.

(** The white space [int()] skips around a literal, for code points
    below 256: tab to carriage return, the blank, and the two
    non-ASCII spaces. The separators [\x1c] to [\x1f], which
    [str.isspace] accepts, are not among them. *)
Definition is_int_space (c : ascii) : bool :=
  let n := nat_of_ascii c in
  ((9 <=? n) && (n <=? 13) || (n =? 32) || (n =? 133) || (n =? 160))%nat.

(** The literal with the white space before it skipped. *)
Fixpoint lstrip (s : string) : string :=
  match s with
  | String c rest => if is_int_space c then lstrip rest else s
  | EmptyString => EmptyString
  end.

(** Digits with single underscores between them, read in base 10;
    [after_digit] tells whether the previous character was a digit, and
    trailing white space ends the literal. *)
Fixpoint digits (s : string) (acc : Z) (after_digit : bool) : option Z :=
  match s with
  | EmptyString => if after_digit then Some acc else None
  | String c rest =>
      if is_digit c then
        digits rest (10 * acc + Z.of_nat (nat_of_ascii c - 48)) true
      else if Ascii.eqb c "_"%char then
        if after_digit then
          match rest with
          | String d _ => if is_digit d then digits rest acc false else None
          | EmptyString => None
          end
        else None
      else if is_int_space c then
        if after_digit then
          match lstrip rest with EmptyString => Some acc | _ => None end
        else None
      else None
  end.

(** The number of digits of a literal; underscores, the sign and white
    space are not counted, leading zeros are. *)
Fixpoint count_digits (s : string) : nat :=
  match s with
  | EmptyString => O
  | String c rest => if is_digit c then S (count_digits rest) else count_digits rest
  end.

(** The literal read without regard to its length. *)
Definition int_literal (s : string) : option Z :=
  match lstrip s with
  | String "-"%char rest => option_map Z.opp (digits rest 0 false)
  | String "+"%char rest => digits rest 0 false
  | t => digits t 0 false
  end.

(** [int(s)] for the [type=int] options: [None] is the [ValueError]
    that argparse turns into a usage error, raised for a malformed
    literal and for one with more digits than the conversion limit. *)
Definition py_int (s : string) : option Z :=
  match int_literal s with
  | Some z =>
      if Z.of_nat (count_digits s) <=? int_max_str_digits then Some z else None
  | None => None
  end.

(** The lines a sequence of [print] calls puts out: each line is built
    before it is printed, and the first one that cannot be built raises,
    the earlier lines being out already. *)
Fixpoint print_all (lines : list (result string)) : list string * option string :=
  match lines with
  | [] => ([], None)
  | Ok s :: rest => let '(out, e) := print_all rest in (s :: out, e)
  | Raise e :: _ => ([], Some e)
  end.

(** [f"{s:<n}"]: padded with spaces on the right to width [n]. *)
Fixpoint spaces (n : nat) : string :=
  match n with
  | O => ""
  | S n' => String " "%char (spaces n')
  end.

Definition ljust (n : nat) (s : string) : string :=
  s +:+ spaces (n - String.length s).

(** ["-" * n]. *)
Fixpoint dashes (n : nat) : string :=
  match n with
  | O => ""
  | S n' => String "-"%char (dashes n')
  end.

End Proc.

Import Proc.

(** ** [ai_agent_tool_view.py] *)

Module View.

(** The command line, option by option, before conversion. *)
Record argv : Type := mkArgv {
  a_run_id : option string;
  a_list : bool;
  a_tool : option string;
  a_limit : option string;
  a_offset : option string;
  a_full : bool
}.

(** The namespace [parser.parse_args()] returns. *)
Record args : Type := mkArgs {
  run_id : option string;
  list_flag : bool;
  tool : option string;
  limit : Z;
  offset : Z;
  full : bool
}.

(** [--limit] and [--offset] are [type=int] with defaults 10 and 0. *)
Definition parse_args (v : argv) : option args :=
  match (match a_limit v with Some s => py_int s | None => Some 10 end),
        (match a_offset v with Some s => py_int s | None => Some 0 end) with
  | Some l, Some o =>
      Some {| run_id := a_run_id v; list_flag := a_list v; tool := a_tool v;
              limit := l; offset := o; full := a_full v |}
  | _, _ => None
  end.

(** A line of [list_runs]. *)
Record run : Type := mkRun {
  r_run_id : string;
  r_tool : string;
  r_count : Z;
  r_query : string
}.

(** An element of [results.json]: a path string (find) or a dict (grep). *)
Inductive entry : Type :=
| PathEntry (path : string)
| MatchEntry (path : string) (line_number : Z) (content : string).

(** What [load_results] returns, as [main] reads it: [data["metadata"]]
    with its ["tool"] and ["query"], and [data["results"]]. *)
Record loaded : Type := mkLoaded {
  meta_tool : string;
  meta_query : option string;
  results : list entry
}.

(** [QuerySkill], which the tool imports: its two calls, each returning
    or raising. *)
Record world : Type := mkWorld {
  list_runs : option string -> result (list run);
  load_results : string -> result loaded
}.

(** An index of [l[start:stop]] brought into [0 .. len(l)]. *)
Definition clamp_index (len i : Z) : Z :=
  if i <? 0 then Z.max 0 (i + len) else Z.min i len.

(** [l[start:stop]]. *)
Definition slice {A} (l : list A) (start stop : Z) : list A :=
  let len := Z.of_nat (length l) in
  let lo := clamp_index len start in
  let hi := clamp_index len stop in
  firstn (Z.to_nat (hi - lo)) (skipn (Z.to_nat lo) l).

(** [display_results] after the [if not args.full] statement. *)
Definition display_results {A} (a : args) (rs : list A) : list A :=
  if full a then rs
  else slice rs (offset a) (offset a + limit a).

(** The range announced by ["Showing results {start+1} to {min(end, len(results))}:"],
    when it is printed. *)
Definition shown_range {A} (a : args) (rs : list A) : option (Z * Z) :=
  if full a then None
  else Some (offset a + 1, Z.min (offset a + limit a) (Z.of_nat (length rs))).

(** [enumerate(l, start)]. *)
Fixpoint enumerate {A} (l : list A) (start : Z) : list (Z * A) :=
  match l with
  | [] => []
  | x :: rest => (start, x) :: enumerate rest (start + 1)
  end.

(** The count in ["... and {n} more."], when that line is printed. *)
Definition more_count {A} (a : args) (rs : list A) : option Z :=
  if negb (full a) && (Z.of_nat (length rs) >? offset a + limit a)
  then Some (Z.of_nat (length rs) - (offset a + limit a))
  else None.

(** The number of results reported as left after the window: the count
    of the "more" line, 0 when the line is not printed. *)
Definition remaining {A} (a : args) (rs : list A) : Z :=
  match more_count a rs with
  | Some n => n
  | None => 0
  end.

(** The [print] calls of the loop body for one numbered entry. *)
Definition print_entry (ie : Z * entry) : list (result string) :=
  match ie with
  | (i, MatchEntry path line_number content) =>
      [ (si ← str_int i; sl ← str_int line_number;
         Ok ("[" +:+ si +:+ "] " +:+ path +:+ ":" +:+ sl));
        Ok ("    " +:+ content) ]
  | (i, PathEntry path) =>
      [ (si ← str_int i; Ok ("[" +:+ si +:+ "] " +:+ path)) ]
  end.

Definition str_option (o : option string) : string :=
  match o with
  | Some s => s
  | None => "None"
  end.

(** The line that names the offset of the next batch. *)
Definition suggestion (a : args) : result string :=
  next ← str_int (offset a + limit a);
  Ok ("SUGGESTION: Use --offset " +:+ next +:+
      " to see the next batch, or use search/filter skills on the results file directly.").

(** The [print] calls inside [try] once [load_results] has returned. *)
Definition show (a : args) (id : string) (d : loaded) : list (result string) :=
  let rs := results d in
  [Ok ("Run ID:    " +:+ id);
   Ok ("Tool:      " +:+ meta_tool d);
   Ok ("Query:     " +:+ str_option (meta_query d));
   Ok ("Total:     " +:+ str_nat (length rs));
   Ok (dashes 24)]
  ++ match shown_range a rs with
     | Some (lo, hi) =>
         [ (slo ← str_int lo; shi ← str_int hi;
            Ok ("Showing results " +:+ slo +:+ " to " +:+ shi +:+ ":")) ]
     | None => [Ok "Showing ALL results:"]
     end
  ++ concat (map print_entry (enumerate (display_results a rs) (offset a + 1)))
  ++ match more_count a rs with
     | Some n =>
         [ (sn ← str_int n; Ok (String "010" ("... and " +:+ sn +:+ " more.")));
           suggestion a ]
     | None => []
     end
  ++ [Ok (dashes 24);
      Ok "PURPOSE: This tool allows you to peep into large results to conserve YOUR (the LLM's) context."].

Definition print_run (r : run) : result string :=
  count ← str_int (r_count r);
  Ok (ljust 40 (r_run_id r) +:+ " | " +:+ ljust 6 (r_tool r) +:+ " | " +:+
      ljust 6 count +:+ " | " +:+ ljust 30 (r_query r)).

Definition banner : string := "--- AI Agent Tool: Result Viewer ---".

(** [not args.run_id]: no run id, or an empty one. *)
Definition no_run_id (a : args) : bool :=
  match run_id a with
  | Some (String _ _) => false
  | _ => true
  end.

(** [main()] once the arguments are parsed. Outside [try] an exception
    is nobody's; inside it, also one raised while a line is formatted
    ends the run with status 1. *)
Definition run_main (w : world) (a : args) : proc :=
  if list_flag a || no_run_id a then
    match list_runs w (tool a) with
    | Raise e => uncaught [banner] e
    | Ok [] =>
        {| exit_code := 0;
           stdout := [banner; "No persisted runs found in _temp/ai_agent/."];
           stderr := [] |}
    | Ok runs =>
        let header :=
          [banner;
           ljust 40 "Run ID" +:+ " | " +:+ ljust 6 "Tool" +:+ " | " +:+
           ljust 6 "Count" +:+ " | " +:+ "Query";
           dashes 80] in
        match print_all (map print_run runs) with
        | (out, None) => {| exit_code := 0; stdout := header ++ out; stderr := [] |}
        | (out, Some e) => uncaught (header ++ out) e
        end
    end
  else
    let id := str_option (run_id a) in
    match load_results w id with
    | Ok d =>
        match print_all (show a id d) with
        | (out, None) => {| exit_code := 0; stdout := banner :: out; stderr := [] |}
        | (out, Some e) =>
            {| exit_code := 1; stdout := banner :: out;
               stderr := ["Error loading run: " +:+ e] |}
        end
    | Raise e =>
        {| exit_code := 1; stdout := [banner]; stderr := ["Error loading run: " +:+ e] |}
    end.

(** [main()]. *)
Definition main (w : world) (v : argv) : proc :=
  match parse_args v with
  | None => usage_error "ai_agent_tool_view.py" "invalid int value"
  | Some a => run_main w a
  end.

End View.

(** ** [ai_agent_tool_find.py] and [ai_agent_tool_grep.py] *)

Module Producer.

(** A generator as the [for] loop sees it: the items it yields and, when
    it stops by raising, the exception. *)
Record generator (A : Type) : Type := mkGen {
  yields : list A;
  raises : option string
}.
Arguments yields {A} g.
Arguments raises {A} g.

(** The directory [create_run_dir] returns: [run_dir.name] and
    [str(run_dir.resolve())]. *)
Record run_dir : Type := mkRunDir {
  dir_name : string;
  dir_resolved : string
}.

(** The positional and optional arguments both tools share. *)
Record argv : Type := mkArgv {
  a_positional : list string;
  a_path : option string;
  a_regex : bool;
  a_recursive : bool
}.

(** A match yielded by [grep_content], with [result["path"].resolve()]
    already rendered by [str]. *)
Record hit : Type := mkHit {
  h_path : string;
  h_line_number : Z;
  h_content : string
}.

(** The [metadata] dict of the find tool. *)
Record find_metadata : Type := mkFindMeta {
  fm_tool : string;
  fm_timestamp : string;
  fm_query : string;
  fm_root : string;
  fm_regex : bool;
  fm_count : Z
}.

(** The [metadata] dict of the grep tool. *)
Record grep_metadata : Type := mkGrepMeta {
  gm_tool : string;
  gm_timestamp : string;
  gm_query : string;
  gm_file_pattern : string;
  gm_root : string;
  gm_regex : bool;
  gm_count : Z;
  gm_file_count : Z
}.

(** The skills the two tools import and the clock. [persist_results]
    receives the metadata and the results as the tool built them. *)
Record world : Type := mkWorld {
  repo_root : string;
  timestamp : string;
  find_files : string -> string -> bool -> bool -> generator string;
  grep_content : string -> string -> string -> bool -> bool -> generator hit;
  create_run_dir : string -> string -> result run_dir;
  persist_find : run_dir -> find_metadata -> list string -> result unit;
  persist_grep : run_dir -> grep_metadata -> list hit -> result unit
}.

(** What a run of a producer tool did: the process, and the call of
    [persist_results] when it was reached. *)
Record run (M R : Type) : Type := mkRun {
  process : proc;
  persisted : option (M * list R)
}.
Arguments process {M R} r.
Arguments persisted {M R} r.

(** The find loop: [results.append(str(item.resolve())); count += 1]. *)
Definition find_loop (items : list string) : list string * Z :=
  fold_left (fun st item => ((fst st ++ [item]), snd st + 1)) items ([], 0).

(** The grep loop: the path joins [found_in_files], the match is
    appended to [results], and [count] is incremented. *)
Definition grep_loop (hits : list hit) : list hit * Z * gset string :=
  fold_left
    (fun st h =>
       let '(results, count, found_in_files) := st in
       ((results ++ [h]), count + 1, found_in_files ∪ {[ h_path h ]}))
    hits ([], 0, ∅).

Definition query_kind (regex : bool) (plain : string) : string :=
  if regex then "Regex" else plain.

Definition find_banner (pattern root_path : string) (regex : bool) : list string :=
  ["--- AI Agent Tool: Find ---";
   "Query:        " +:+ query_kind regex "Glob" +:+ " '" +:+ pattern +:+ "'";
   "Target:       " +:+ root_path;
   dashes 24].

(** [args.path or str(fs.repo_root)]. *)
Definition root_path (w : world) (v : argv) : string :=
  match a_path v with
  | Some (String c rest) => String c rest
  | _ => repo_root w
  end.

(** The [try] body of the find tool, up to [persist_results]: the
    metadata and results it persisted and the run directory. *)
Definition find_body (w : world) (pattern : string) (v : argv)
    : result (find_metadata * list string * run_dir) :=
  let g := find_files w pattern (root_path w v) (a_regex v) (a_recursive v) in
  let '(results, count) := find_loop (yields g) in
  match raises g with
  | Some e => Raise e
  | None =>
      let metadata :=
        {| fm_tool := "ai_agent_tool_find"; fm_timestamp := timestamp w;
           fm_query := pattern; fm_root := root_path w v; fm_regex := a_regex v;
           fm_count := count |} in
      dir ← create_run_dir w "find" pattern;
      _ ← persist_find w dir metadata results;
      Ok (metadata, results, dir)
  end.

(** [main()] of the find tool once the arguments are parsed. *)
Definition find_run (w : world) (pattern : string) (v : argv) : run find_metadata string :=
  let out := find_banner pattern (root_path w v) (a_regex v) in
  match find_body w pattern v with
  | Raise e =>
      {| process := {| exit_code := 1; stdout := out; stderr := ["Error during find: " +:+ e] |};
         persisted := None |}
  | Ok (metadata, results, dir) =>
      {| process :=
           {| exit_code := 0;
              stdout := out ++
                ["FIND OPERATION COMPLETE.";
                 "Total Matches Found: " +:+ str_Z (fm_count metadata);
                 "Results Persisted To: " +:+ dir_resolved dir +:+ "\results.json";
                 "Run ID:              " +:+ dir_name dir;
                 dashes 24;
                 "ACTION REQUIRED: Review the output file listed above or use 'ai_agent' tools (find, filter, diff) to process this data.";
                 "PURPOSE: This tool persists results to disk to conserve YOUR (the LLM's) context and improve operation speed."];
              stderr := [] |};
         persisted := Some (metadata, results) |}
  end.

(** [main()] of the find tool: exactly one positional argument. *)
Definition find_main (w : world) (v : argv) : run find_metadata string :=
  match a_positional v with
  | [pattern] => find_run w pattern v
  | _ =>
      {| process := usage_error "ai_agent_tool_find.py" "bad positional arguments";
         persisted := None |}
  end.

Definition grep_banner (query file_pattern root_path : string) (regex : bool) : list string :=
  ["--- AI Agent Tool: Grep ---";
   "Query:        " +:+ query_kind regex "String" +:+ " '" +:+ query +:+ "'";
   "File Pattern: " +:+ file_pattern;
   "Target:       " +:+ root_path;
   dashes 24].

(** The [try] body of the grep tool, up to [persist_results]; the last
    component is [found_in_files]. *)
Definition grep_body (w : world) (query file_pattern : string) (v : argv)
    : result (grep_metadata * list hit * run_dir * gset string) :=
  let g := grep_content w query (root_path w v) file_pattern (a_regex v) (a_recursive v) in
  let '(results, count, found_in_files) := grep_loop (yields g) in
  match raises g with
  | Some e => Raise e
  | None =>
      let metadata :=
        {| gm_tool := "ai_agent_tool_grep"; gm_timestamp := timestamp w;
           gm_query := query; gm_file_pattern := file_pattern;
           gm_root := root_path w v; gm_regex := a_regex v;
           gm_count := count;
           gm_file_count := Z.of_nat (size found_in_files) |} in
      dir ← create_run_dir w "grep" query;
      _ ← persist_grep w dir metadata results;
      Ok (metadata, results, dir, found_in_files)
  end.

(** [main()] of the grep tool once the arguments are parsed. *)
Definition grep_run (w : world) (query file_pattern : string) (v : argv) : run grep_metadata hit :=
  let out := grep_banner query file_pattern (root_path w v) (a_regex v) in
  match grep_body w query file_pattern v with
  | Raise e =>
      {| process := {| exit_code := 1; stdout := out; stderr := ["Error during grep: " +:+ e] |};
         persisted := None |}
  | Ok (metadata, results, dir, found_in_files) =>
      {| process :=
           {| exit_code := 0;
              stdout := out ++
                ["GREP OPERATION COMPLETE.";
                 "Total Matches Found:     " +:+ str_Z (gm_count metadata);
                 "Matches Across Files:    " +:+ str_nat (size found_in_files);
                 "Results Persisted To:    " +:+ dir_resolved dir +:+ "\results.json";
                 "Run ID:                  " +:+ dir_name dir;
                 dashes 24;
                 "ACTION REQUIRED: Review the output file listed above or use 'ai_agent' tools (find, filter, diff) to process this data.";
                 "PURPOSE: This tool persists results to disk to conserve YOUR (the LLM's) context and improve operation speed."];
              stderr := [] |};
         persisted := Some (metadata, results) |}
  end.

(** [main()] of the grep tool: [query] and an optional [file_pattern]
    (default ["*"]). *)
Definition grep_main (w : world) (v : argv) : run grep_metadata hit :=
  match a_positional v with
  | [query] => grep_run w query "*" v
  | [query; file_pattern] => grep_run w query file_pattern v
  | _ =>
      {| process := usage_error "ai_agent_tool_grep.py" "bad positional arguments";
         persisted := None |}
  end.

End Producer.

(** ** [ai_agent_tool_copy.py] *)

Module Copy.

(** The command line: [source], [dest] and the options. *)
Record argv : Type := mkArgv {
  a_positional : list string;
  a_pattern : option string;
  a_recursive : bool;
  a_flatten : bool;
  a_date : option string;
  a_mode : option string;
  a_dry_run : bool
}.

Inductive mode : Type := Eq_ | Gt_ | Lt_.

(** [choices=['eq', 'gt', 'lt']], default ['eq']. *)
Definition parse_mode (m : option string) : option mode :=
  match m with
  | None => Some Eq_
  | Some s =>
      if String.eqb s "eq" then Some Eq_
      else if String.eqb s "gt" then Some Gt_
      else if String.eqb s "lt" then Some Lt_
      else None
  end.

(** A [datetime] at midnight. *)
Record date : Type := mkDate { year : Z; month : Z; day : Z }.

(** [datetime.strptime] with ["%Y-%m-%d"], and [FileSystemSkill.copy_files]. *)
Record world : Type := mkWorld {
  strptime : string -> result date;
  copy_files :
    string -> string -> string -> bool -> bool -> option date -> mode ->
    result (list (string * string))
}.

(** [main()] once the arguments are parsed. *)
Definition run_main (w : world) (source dest : string) (m : mode) (v : argv) : proc :=
  let date_filter :=
    match a_date v with
    | Some (String c rest) =>
        match strptime w (String c rest) with
        | Ok d => Ok (Some d)
        | Raise e => Raise e
        end
    | _ => Ok None
    end in
  match date_filter with
  | Raise _ =>
      {| exit_code := 1; stdout := [];
         stderr := ["Error: Invalid date format. Use YYYY-MM-DD."] |}
  | Ok df =>
      let pattern := match a_pattern v with Some p => p | None => "*" end in
      match copy_files w source dest pattern (a_recursive v) (a_flatten v) df m with
      | Raise e => {| exit_code := 1; stdout := []; stderr := ["Error: " +:+ e] |}
      | Ok ops =>
          let status := if a_dry_run v then "[DRY RUN] Would copy" else "Copied" in
          {| exit_code := 0;
             stdout := (map (fun op => status +:+ ": " +:+ fst op +:+ " -> " +:+ snd op) ops
                        ++ ["Total operations: " +:+ str_nat (length ops)]);
             stderr := [] |}
      end
  end.

(** [main()]. *)
Definition main (w : world) (v : argv) : proc :=
  match a_positional v, parse_mode (a_mode v) with
  | [source; dest], Some m => run_main w source dest m v
  | _, _ => usage_error "ai_agent_tool_copy.py" "invalid arguments"
  end.

End Copy.

(** ** Partitions of a block sequence *)

Module Partition.

Import Handover.

(** The weight constraint on a group of consecutive, unsplit blocks: its
    total weight is within [max_weight], unless the group is exactly one
    block that is heavier than [max_weight] by itself. *)
Definition admissible (max_weight : Z) (g : list string) : Prop :=
  total_lines g <= max_weight \/ exists b, g = [b] /\ max_weight < b_lines b.

(** Every chunk but the last is followed by a chunk whose first block
    would not have fitted into it. *)
Inductive closed_when_full (max_weight : Z) : list (list string) -> Prop :=
| cwf_nil : closed_when_full max_weight []
| cwf_one c : closed_when_full max_weight [c]
| cwf_cons c b t rest :
    max_weight < total_lines c + b_lines b ->
    closed_when_full max_weight ((b :: t) :: rest) ->
    closed_when_full max_weight (c :: (b :: t) :: rest).

(** [p] with the first [k] blocks of its concatenation removed, group
    by group. *)
Fixpoint drop_blocks (k : nat) (p : list (list string)) : list (list string) :=
  match p with
  | [] => []
  | g :: rest =>
      if (k <=? length g)%nat then skipn k g :: rest
      else drop_blocks (k - length g) rest
  end.

End Partition.

(** ** Sample inputs *)

Module Demo.

Import Handover.

(** [n] line breaks. *)
Fixpoint newlines (n : nat) : string :=
  match n with
  | O => ""
  | S n' => String "010" (newlines n')
  end.

(** One entry of [requests]: a user message and the response parts. *)
Definition request (text : string) (values : list string) : json :=
  JObj [("message", JObj [("text", JStr text)]);
        ("response", JArr (map (fun v => JObj [("value", JStr v)]) values))].

(** A chat session file with the given user messages, each answered
    with ["ok"]. *)
Definition chat (texts : list string) : json :=
  JObj [("requests", JArr (map (fun t => request t ["ok"]) texts))].

(** A world in which the session file holds [data] and every write
    succeeds. *)
Definition world_of (data : result json) : world :=
  {| json_name := "session.json";
     read_json := data;
     now := fun _ => "2025-01-01 00:00:00";
     py_str := fun _ => "None";
     write_file := fun _ => Written |}.

(** The same, except that the write of the file named [bad] goes as
    [how]. *)
Definition world_failing (data : result json) (bad : string) (how : write_result) : world :=
  {| json_name := "session.json";
     read_json := data;
     now := fun _ => "2025-01-01 00:00:00";
     py_str := fun _ => "None";
     write_file := fun p => if String.eqb (name p) bad then how else Written |}.

(** [results['bundle_dir'] / "vscode_chat_history.md"]. *)
Definition chat_out : Path :=
  {| parent := "bundle"; name := "vscode_chat_history.md" |}.

Definition three_requests : json :=
  JArr [request "a" ["ok"]; request "b" ["ok"]; request "c" ["ok"]].

Definition three_blocks : list string :=
  Eval vm_compute in
    match build_blocks (world_of (Ok JNull)) three_requests with
    | Ok blocks => blocks
    | Raise _ => []
    end.

(** The viewer's store: no run is known. *)
Definition view_world : View.world :=
  {| View.list_runs := fun _ => Ok [];
     View.load_results := fun id => Raise ("Run ID not found: " +:+ id) |}.

Definition view_argv (run_id limit offset : option string) (full : bool) : View.argv :=
  {| View.a_run_id := run_id; View.a_list := false; View.a_tool := None;
     View.a_limit := limit; View.a_offset := offset; View.a_full := full |}.

Definition view_args (limit offset : Z) (full : bool) : View.args :=
  {| View.run_id := Some "20250101_000000_txt"; View.list_flag := false;
     View.tool := None; View.limit := limit; View.offset := offset;
     View.full := full |}.

(** [[0, 1, ..., n-1]]. *)
Definition range (n : nat) : list Z := map Z.of_nat (seq 0 n).

(** A workspace in which every search yields the same three matches in
    two files, and persisting works. *)
Definition producer_world : Producer.world :=
  {| Producer.repo_root := "/repo";
     Producer.timestamp := "2025-01-01T00:00:00";
     Producer.find_files := fun _ _ _ _ =>
       {| Producer.yields := ["/repo/a.txt"; "/repo/b.txt"]; Producer.raises := None |};
     Producer.grep_content := fun _ _ _ _ _ =>
       {| Producer.yields :=
            [ {| Producer.h_path := "/repo/a.txt"; Producer.h_line_number := 1;
                 Producer.h_content := "x" |};
              {| Producer.h_path := "/repo/a.txt"; Producer.h_line_number := 7;
                 Producer.h_content := "xx" |};
              {| Producer.h_path := "/repo/b.txt"; Producer.h_line_number := 2;
                 Producer.h_content := "x" |} ];
          Producer.raises := None |};
     Producer.create_run_dir := fun tool _ =>
       Ok {| Producer.dir_name := "20250101_000000_" +:+ tool;
             Producer.dir_resolved := "/repo/_temp/ai_agent/20250101_000000_" +:+ tool |};
     Producer.persist_find := fun _ _ _ => Ok tt;
     Producer.persist_grep := fun _ _ _ => Ok tt |}.

Definition producer_argv (positional : list string) : Producer.argv :=
  {| Producer.a_positional := positional; Producer.a_path := None;
     Producer.a_regex := false; Producer.a_recursive := true |}.

(** A file system on which every copy works and no date parses. *)
Definition copy_world : Copy.world :=
  {| Copy.strptime := fun s => Raise ("time data '" +:+ s +:+ "' does not match format '%Y-%m-%d'");
     Copy.copy_files := fun src dst _ _ _ _ _ => Ok [(src, dst)] |}.

Definition copy_argv (date mode : option string) : Copy.argv :=
  {| Copy.a_positional := ["src"; "dst"]; Copy.a_pattern := None;
     Copy.a_recursive := false; Copy.a_flatten := false;
     Copy.a_date := date; Copy.a_mode := mode; Copy.a_dry_run := false |}.

End Demo.

(** ** Further inputs of the viewer *)

Module Paging.

Import View.

(** The same command line with another [--offset] and [--limit]. *)
Definition with_window (a : args) (off lim : Z) : args :=
  {| run_id := run_id a; list_flag := list_flag a; tool := tool a;
     limit := lim; offset := off; full := full a |}.


End Paging.

(** ** The markdown of a block *)

Module Markdown.

(** ["\n\n## User\n"], ["\n\n## Assistant\n"] and ["\n\n---"]. *)
Definition user_heading : string :=
  String "010" (String "010" ("## User" +:+ String "010" "")).

Definition assistant_heading : string :=
  String "010" (String "010" ("## Assistant" +:+ String "010" "")).

Definition rule : string := String "010" (String "010" "---").

(** The text a response part adds to the answer: its ["value"] when
    that is a string, nothing when the key is missing or its value is
    falsy; [None] when the part makes the export fail. *)
Definition value_text (resp : json) : option string :=
  match resp with
  | JObj fields =>
      match assoc "value" fields with
      | None => Some ""
      | Some (JStr s) => Some s
      | Some v => if truthy v then None else Some ""
      end
  | _ => None
  end.

(** The number a run of decimal digits stands for, leading zeros
    allowed. *)
Definition read_number (s : string) : option nat :=
  option_map Nat.of_uint (DecimalString.NilEmpty.uint_of_string s).

End Markdown.

(** ** [ai_agent_tool_vscode_handover.py]: [derive_session_id] and [main] *)

Module Session.

(** [c.isalnum()] for code points below 256. *)
Definition isalnum (c : ascii) : bool :=
  let n := nat_of_ascii c in
  ((48 <=? n) && (n <=? 57) || (65 <=? n) && (n <=? 90) || (97 <=? n) && (n <=? 122)
   || (n =? 170) || (n =? 178) || (n =? 179) || (n =? 181) || (n =? 185) || (n =? 186)
   || (188 <=? n) && (n <=? 190) || (192 <=? n) && (n <=? 214)
   || (216 <=? n) && (n <=? 246) || (248 <=? n) && (n <=? 255))%nat.

(** [c.isalnum() or c in "-_"]. *)
Definition keeps (c : ascii) : bool :=
  isalnum c || Ascii.eqb c "-" || Ascii.eqb c "_".

(** ["".join(c if c.isalnum() or c in "-_" else "_" for c in raw_session_id)]. *)
Fixpoint safe_id (raw_session_id : string) : string :=
  match raw_session_id with
  | EmptyString => EmptyString
  | String c rest => String (if keeps c then c else "_"%char) (safe_id rest)
  end.

(** [needle in hay]. *)
Fixpoint contains (needle hay : string) : bool :=
  String.prefix needle hay ||
  match hay with
  | EmptyString => false
  | String _ rest => contains needle rest
  end.

(** A file a glob found: its [stem] and its [st_mtime], on any scale
    that keeps the order of the times. *)
Definition candidate : Type := (string * Z)%type.

(** What [derive_session_id] sees of one search path: whether it
    exists, and the two globs with the [stat] of each file found; a glob
    or a [stat] that raises is a [Raise]. *)
Record listing : Type := mkListing {
  l_exists : bool;
  explicit_specs : result (list candidate);   (* CODE_IMPLEMENTATION_SPEC_*.md *)
  broad_specs : result (list candidate)       (* *SPEC*.md *)
}.

(** The first element after [candidates.sort(key=mtime, reverse=True)]:
    the sort is stable, so among the files with the latest time the one
    the glob listed first. *)
Fixpoint latest_from (best : candidate) (cs : list candidate) : candidate :=
  match cs with
  | [] => best
  | c :: rest => latest_from (if snd best <? snd c then c else best) rest
  end.

(** The loop [for base in search_paths] of [derive_session_id], with the
    fallback [source_path.name]. *)
Fixpoint search_specs (source_name : string) (search_paths : list listing) : string :=
  match search_paths with
  | [] => source_name
  | base :: rest =>
      if negb (l_exists base) then search_specs source_name rest
      else
        match explicit_specs base with
        | Raise _ => search_specs source_name rest
        | Ok (c :: cs) => fst (latest_from c cs)
        | Ok [] =>
            match broad_specs base with
            | Raise _ => search_specs source_name rest
            | Ok (c :: cs) => fst (latest_from c cs)
            | Ok [] => search_specs source_name rest
            end
        end
  end.

(** The bundle [create_bundle] reports: [results['bundle_dir']],
    [results['zip_path'].name] and [results['docs_dir'].name]. *)
Record bundle : Type := mkBundle {
  b_dir : string;
  b_zip_name : string;
  b_docs_name : string
}.

(** An option that takes a value, as it stands on the command line. *)
Inductive valued : Type :=
| Absent                 (* the option is not given *)
| Lacking                (* it is given, but no value follows it *)
| Value (s : string).    (* it is given with its value *)

(** The command line as argparse sorts its words: the positional
    arguments in order, the options the parser knows, and the options it
    does not know. *)
Record cli : Type := mkCli {
  c_positional : list string;
  c_session_id : valued;         (* --name, --session-id *)
  c_target_root : valued;        (* --target-root *)
  c_no_chat : bool;
  c_with_files : bool;
  c_dry_run : bool;
  c_force : bool;
  c_unknown : list string
}.

(** The arguments [parser.parse_args()] returns; [a_source_path] is
    [None] when the default ["."] applies. *)
Record argv : Type := mkArgv {
  a_source_path : option string;
  a_session_id : option string;
  a_target_root : option string;
  a_no_chat : bool;
  a_with_files : bool;
  a_dry_run : bool;
  a_force : bool
}.

Definition value_of (o : valued) : option (option string) :=
  match o with
  | Absent => Some None
  | Value s => Some (Some s)
  | Lacking => None
  end.

(** [parser.parse_args()]: [source_path] is [nargs="?"], so at most one
    positional argument is taken; a second one, an unknown option, and a
    [--name] or [--target-root] without its value are rejected. *)
Definition parse_args (c : cli) : option argv :=
  let namespace (source_path : option string) : option argv :=
    match value_of (c_session_id c), value_of (c_target_root c), c_unknown c with
    | Some session_id, Some target_root, [] =>
        Some {| a_source_path := source_path; a_session_id := session_id;
                a_target_root := target_root; a_no_chat := c_no_chat c;
                a_with_files := c_with_files c; a_dry_run := c_dry_run c;
                a_force := c_force c |}
    | _, _, _ => None
    end in
  match c_positional c with
  | [] => namespace None
  | [source_path] => namespace (Some source_path)
  | _ => None
  end.

(** The file system, the clock and the skills [main] uses.
    [find_chat_json] gives the session file it found together with the
    surroundings [export_to_markdown] then runs in. *)
Record world : Type := mkWorld {
  repo_root : string;
  resolve : string -> string;            (* str(Path(p).resolve()) *)
  path_name : string -> string;          (* Path(p).name *)
  joinpath : string -> string -> string; (* str(Path(p) / q) *)
  path_exists : string -> bool;
  listing_of : string -> listing;
  timestamp_prefix : string;
  create_bundle : string -> string -> string -> result bundle;
  mkdir : string -> result unit;
  find_chat_json : string -> result (option Handover.world)
}.

(** [derive_session_id(source_path, repo_root)]. *)
Definition derive_session_id (w : world) (source_path repo_root : string) : string :=
  let search_paths :=
    [source_path] ++
    (if String.eqb (resolve w source_path) (resolve w repo_root)
     then [joinpath w (joinpath w (joinpath w repo_root "docs") "implementation") "in_progress"]
     else []) in
  search_specs (path_name w source_path) (map (listing_of w) search_paths).

Definition risky_dirs : list string :=
  ["node_modules"; ".git"; ".venv"; "venv"; "target"; "dist"].

(** What a run did: the process, the directory [mkdir] was asked to
    make, the bundle [create_bundle] staged, and the chat export. *)
Record run : Type := mkRun {
  process : proc;
  made_dir : option string;
  staged : option bundle;
  chat : option Handover.outcome
}.

(** The lines about the chat export, after the export ran. *)
Definition chat_report (hw : Handover.world) (o : Handover.outcome) : list string :=
  Handover.printed o ++
  match Handover.returned o with
  | [] => [" - Chat: Extraction Failed"]
  | exported =>
      map (fun f => " - Chat Log: " +:+ Handover.name f) exported
      ++ ["   (Extracted from " +:+ Handover.json_name hw +:+ ")"]
  end.

Definition closing_lines : list string :=
  [dashes 24;
   "PURPOSE: This tool archives the current VS Code session context (specs, chat logs, scratches) to ensure context conservation.";
   "TIP: Point this tool at your '_inbox' or 'docs/in_progress' folder."].

(** [main()] from step 5 on: the chat extraction and the closing lines. *)
Definition extract_chat (w : world) (v : argv) (out : list string)
    (dir : option string) (b : option bundle) (bundle_dir : string) : run :=
  if negb (a_no_chat v) && negb (a_dry_run v) then
    let out1 := out ++ [String "010" "... Attempting to extract VS Code Chat History ..."] in
    match find_chat_json w (repo_root w) with
    | Raise e =>
        {| process := {| exit_code := 1; stdout := out1;
                         stderr := ["Error during handover: " +:+ e] |};
           made_dir := dir; staged := b; chat := None |}
    | Ok None =>
        {| process := {| exit_code := 0;
                         stdout := out1 ++ [" - Chat: No active chat session found."]
                                   ++ closing_lines;
                         stderr := [] |};
           made_dir := dir; staged := b; chat := None |}
    | Ok (Some hw) =>
        let chat_out :=
          {| Handover.parent := bundle_dir;
             Handover.name := "vscode_chat_history.md" |} in
        let o := Handover.export_to_markdown hw chat_out 500 in
        {| process := {| exit_code := 0;
                         stdout := out1 ++ chat_report hw o ++ closing_lines;
                         stderr := [] |};
           made_dir := dir; staged := b; chat := Some o |}
    end
  else
    {| process := {| exit_code := 0; stdout := out ++ closing_lines; stderr := [] |};
       made_dir := dir; staged := b; chat := None |}.

(** [bundle_dir], from [--target-root], the clock and the session id. *)
Definition bundle_dir_of (w : world) (v : argv) (source_path : string) : string :=
  let target_root :=
    match a_target_root v with
    | Some (String c rest) => String c rest
    | _ => joinpath w (joinpath w (joinpath w (repo_root w) "_ops") "handovers")
             "vscode_sessions"
    end in
  let raw_session_id :=
    match a_session_id v with
    | Some (String c rest) => String c rest
    | _ => derive_session_id w source_path (repo_root w)
    end in
  joinpath w target_root (timestamp_prefix w +:+ "_" +:+ safe_id raw_session_id).

(** The [safe_id] of a run, as passed to [create_bundle] for the zip. *)
Definition session_safe_id (w : world) (v : argv) (source_path : string) : string :=
  safe_id (match a_session_id v with
           | Some (String c rest) => String c rest
           | _ => derive_session_id w source_path (repo_root w)
           end).

(** [main()] once the arguments are parsed. *)
Definition run_main (w : world) (v : argv) : run :=
  let source_path :=
    resolve w (match a_source_path v with Some p => p | None => "." end) in
  if negb (path_exists w source_path) then
    {| process := {| exit_code := 1; stdout := [];
                     stderr := ["Error: Source path not found: " +:+ source_path] |};
       made_dir := None; staged := None; chat := None |}
  else
    let warning :=
      if negb (a_force v)
         && existsb (fun d => path_exists w (joinpath w source_path d)) risky_dirs
         && negb (contains "_inbox" source_path)
         && negb (contains "temp" source_path)
      then ["WARNING: The source directory '" +:+ path_name w source_path
            +:+ "' looks like a project root (contains git/node_modules).";
            "Archiving this might be huge. Use --force to proceed specific path."]
      else [] in
    let bundle_dir := bundle_dir_of w v source_path in
    let out :=
      warning ++
      ["--- AI Agent Tool: VS Code Handover ---";
       "Workspace Root: " +:+ repo_root w;
       "Source Context: " +:+ source_path;
       "Target Bundle:  " +:+ bundle_dir]
      ++ (if a_dry_run v then ["[DRY RUN MODE]"] else []) in
    let failed (out' : list string) (dir : option string) (e : string) :=
      {| process := {| exit_code := 1; stdout := out';
                       stderr := ["Error during handover: " +:+ e] |};
         made_dir := dir; staged := None; chat := None |} in
    if a_with_files v then
      match create_bundle w source_path bundle_dir (session_safe_id w v source_path) with
      | Raise e => failed out None e
      | Ok b =>
          extract_chat w v
            (out ++ [String "010" "Success! VS Code Session handover staged at:";
                     " - Dir:  " +:+ b_dir b;
                     " - Zip:  " +:+ b_zip_name b;
                     " - Docs: " +:+ b_docs_name b +:+ "/"])
            None (Some b) (b_dir b)
      end
    else
      let out1 := out ++ ["Mode: Chat Extraction Only (Default)"] in
      if a_dry_run v then extract_chat w v out1 None None bundle_dir
      else
        match mkdir w bundle_dir with
        | Raise e => failed out1 None e
        | Ok _ => extract_chat w v out1 (Some bundle_dir) None bundle_dir
        end.

(** [main()]. *)
Definition main (w : world) (c : cli) : run :=
  match parse_args c with
  | None =>
      {| process := usage_error "ai_agent_tool_vscode_handover.py" "invalid arguments";
         made_dir := None; staged := None; chat := None |}
  | Some v => run_main w v
  end.

End Session.

(** ** [ai_agent_tool_antigravity_handover.py] *)

Module Brain.

(** The command line: [source_id], the optional [bundle_id] and the
    options. *)
Record argv : Type := mkArgv {
  a_source_id : option string;
  a_bundle_id : option string;
  a_brain_root : option string;
  a_target_root : option string;
  a_dry_run : bool
}.

(** The file system, the clock and [HandoverSkill.create_bundle]. *)
Record world : Type := mkWorld {
  repo_root : string;
  home : string;                          (* os.path.expanduser("~") *)
  joinpath : string -> string -> string;  (* str(Path(p) / q) *)
  path_exists : string -> bool;
  timestamp_prefix : string;
  create_bundle : string -> string -> string -> result Session.bundle
}.

Record run : Type := mkRun {
  process : proc;
  staged : option Session.bundle
}.

(** [source_path = brain_root / args.source_id]. *)
Definition source_path_of (w : world) (v : argv) (source_id : string) : string :=
  let brain_root :=
    match a_brain_root v with
    | Some (String c rest) => String c rest
    | _ => joinpath w (joinpath w (joinpath w (home w) ".gemini") "antigravity") "brain"
    end in
  joinpath w brain_root source_id.

(** [bundle_dir = target_root / f"{timestamp_prefix}_{args.source_id}"]. *)
Definition bundle_dir_of (w : world) (v : argv) (source_id : string) : string :=
  let target_root :=
    match a_target_root v with
    | Some (String c rest) => String c rest
    | _ => joinpath w (joinpath w (joinpath w (repo_root w) "_ops") "handovers")
             "antigravity_brains"
    end in
  joinpath w target_root (timestamp_prefix w +:+ "_" +:+ source_id).

(** [main()]. *)
Definition main (w : world) (v : argv) : run :=
  match a_source_id v with
  | None =>
      {| process := usage_error "ai_agent_tool_antigravity_handover.py"
                      "the following arguments are required: source_id";
         staged := None |}
  | Some source_id =>
      let source_path := source_path_of w v source_id in
      if negb (path_exists w source_path) then
        {| process := {| exit_code := 1; stdout := [];
                         stderr := ["Error: Source brain path not found: " +:+ source_path] |};
           staged := None |}
      else
        let bundle_dir := bundle_dir_of w v source_id in
        let out :=
          ["--- AI Agent Tool: Handover ---";
           "Workspace Root: " +:+ repo_root w;
           "Source Brain:   " +:+ source_path;
           "Target Bundle:  " +:+ bundle_dir]
          ++ (if a_dry_run v then ["[DRY RUN MODE]"] else []) in
        match create_bundle w source_path bundle_dir source_id with
        | Raise e =>
            {| process := {| exit_code := 1; stdout := out;
                             stderr := ["Error during handover: " +:+ e] |};
               staged := None |}
        | Ok b =>
            {| process :=
                 {| exit_code := 0;
                    stdout := out ++
                      [String "010" "Success! Handover bundle staged at:";
                       " - Dir:  " +:+ Session.b_dir b;
                       " - Zip:  " +:+ Session.b_zip_name b;
                       " - Docs: " +:+ Session.b_docs_name b +:+ "/";
                       dashes 24;
                       "PURPOSE: This tool archives the current session state to ensure context conservation for future sessions."];
                    stderr := [] |};
               staged := Some b |}
        end
  end.

End Brain.

(** ** [ai_agent_tool_archive.py] *)

Module Archive.

Record argv : Type := mkArgv {
  a_positional : list string;
  a_dry_run : bool
}.

(** [FileSystemSkill.archive_directory(source, output)]. *)
Record world : Type := mkWorld {
  archive_directory : string -> string -> result string
}.

(** [main()]. *)
Definition main (w : world) (v : argv) : proc :=
  match a_positional v with
  | [source; output] =>
      match archive_directory w source output with
      | Raise e => {| exit_code := 1; stdout := []; stderr := ["Error: " +:+ e] |}
      | Ok output_path =>
          let status := if a_dry_run v then "[DRY RUN] Would archive" else "Archived" in
          {| exit_code := 0;
             stdout := [status +:+ ": " +:+ source +:+ " -> " +:+ output_path];
             stderr := [] |}
      end
  | _ => usage_error "ai_agent_tool_archive.py" "bad positional arguments"
  end.

End Archive.

(** ** [ai_agent_tool_list.py] *)

Module Listing.

Record argv : Type := mkArgv {
  a_positional : list string;
  a_pattern : option string;
  a_recursive : bool;
  a_dirs : bool;
  a_date : option string;
  a_mode : option string;
  a_json : bool
}.

(** A path [list_files] returned: [str(f)], [f.name] and [f.stat()],
    read as [st_size] and the ISO form of [st_mtime]. *)
Record file : Type := mkFile {
  f_path : string;
  f_name : string;
  f_stat : result (Z * string)
}.

(** An [info] dict. *)
Record info : Type := mkInfo {
  i_path : string;
  i_name : string;
  i_size : Z;
  i_mtime : string
}.

(** The skill's two calls, [datetime.strptime] with ["%Y-%m-%d"], and
    [json.dumps(results, indent=2)]. *)
Record world : Type := mkWorld {
  list_files : string -> string -> bool -> bool -> result (list file);
  strptime : string -> result Copy.date;
  filter_by_date : list file -> Copy.date -> Copy.mode -> result (list file);
  dumps : list info -> string
}.

(** The body of [for f in files]. *)
Definition info_of (f : file) : result info :=
  st ← f_stat f;
  Ok {| i_path := f_path f; i_name := f_name f;
        i_size := fst st; i_mtime := snd st |}.

(** The [try] body up to the printing: [results]. *)
Definition collect (w : world) (root : string) (m : Copy.mode) (v : argv)
    : result (list info) :=
  files ← list_files w root
            (match a_pattern v with Some p => p | None => "*" end)
            (a_recursive v) (a_dirs v);
  files' ← match a_date v with
           | Some (String c rest) =>
               filter_date ← strptime w (String c rest);
               filter_by_date w files filter_date m
           | _ => Ok files
           end;
  foldM (fun results f => i ← info_of f; Ok (results ++ [i])) [] files'.

(** [main()]; the [--mode] choices are those of the copy tool. *)
Definition main (w : world) (v : argv) : proc :=
  match a_positional v, Copy.parse_mode (a_mode v) with
  | [root], Some m =>
      match collect w root m v with
      | Raise e => {| exit_code := 1; stdout := []; stderr := ["Error: " +:+ e] |}
      | Ok results =>
          {| exit_code := 0;
             stdout := if a_json v then [dumps w results] else map i_path results;
             stderr := [] |}
      end
  | _, _ => usage_error "ai_agent_tool_list.py" "invalid arguments"
  end.

End Listing.

(** ** Further sample inputs *)

Module Samples.

(** A workspace whose folders all exist and hold no spec file, in which
    directories can be made and the chat session [data] is found. *)
Definition session_world (data : result json) : Session.world :=
  {| Session.repo_root := "/repo";
     Session.resolve := fun p => if String.eqb p "." then "/repo/_inbox" else p;
     Session.path_name := fun _ => "_inbox";
     Session.joinpath := fun p q => p +:+ "/" +:+ q;
     Session.path_exists := fun p => String.eqb p "/repo/_inbox";
     Session.listing_of := fun _ =>
       {| Session.l_exists := true;
          Session.explicit_specs := Ok [];
          Session.broad_specs := Ok [] |};
     Session.timestamp_prefix := "20250101_000000";
     Session.create_bundle := fun _ dir zip =>
       Ok {| Session.b_dir := dir; Session.b_zip_name := zip +:+ ".zip";
             Session.b_docs_name := "docs" |};
     Session.mkdir := fun _ => Ok tt;
     Session.find_chat_json := fun _ => Ok (Some (Demo.world_of data)) |}.

Definition session_argv : Session.argv :=
  {| Session.a_source_path := None; Session.a_session_id := None;
     Session.a_target_root := None; Session.a_no_chat := false;
     Session.a_with_files := false; Session.a_dry_run := false;
     Session.a_force := false |}.

(** The command line without any argument, and with the given
    positional arguments. *)
Definition session_cli (positional : list string) : Session.cli :=
  {| Session.c_positional := positional; Session.c_session_id := Session.Absent;
     Session.c_target_root := Session.Absent; Session.c_no_chat := false;
     Session.c_with_files := false; Session.c_dry_run := false;
     Session.c_force := false; Session.c_unknown := [] |}.

(** Three files, the second of which can no longer be read. *)
Definition listed_files : list Listing.file :=
  [ {| Listing.f_path := "/repo/a.txt"; Listing.f_name := "a.txt";
       Listing.f_stat := Ok (3, "2025-01-01T00:00:00") |};
    {| Listing.f_path := "/repo/b.txt"; Listing.f_name := "b.txt";
       Listing.f_stat := Raise "FileNotFoundError: /repo/b.txt" |};
    {| Listing.f_path := "/repo/c.txt"; Listing.f_name := "c.txt";
       Listing.f_stat := Ok (5, "2025-01-02T00:00:00") |} ].

Definition listing_world (files : list Listing.file) : Listing.world :=
  {| Listing.list_files := fun _ _ _ _ => Ok files;
     Listing.strptime := fun s => Raise ("time data '" +:+ s +:+ "' does not match format '%Y-%m-%d'");
     Listing.filter_by_date := fun fs _ _ => Ok fs;
     Listing.dumps := fun _ => "[]" |}.

Definition listing_argv : Listing.argv :=
  {| Listing.a_positional := ["/repo"]; Listing.a_pattern := None;
     Listing.a_recursive := false; Listing.a_dirs := false;
     Listing.a_date := None; Listing.a_mode := None; Listing.a_json := false |}.

End Samples.

(** * Properties *)

(** ** Blocks and their weights *)

Section BlockFacts.

Import Handover.

Lemma count_nl_app (a b : string) :
  count_nl (a +:+ b) = (count_nl a + count_nl b)%nat.
Proof.
  induction a as [|c a IH]; simpl; [reflexivity|].
  destruct (Ascii.eqb c "010"); simpl; rewrite IH; reflexivity.
Qed.

Lemma b_lines_nonneg (b : string) : 0 <= b_lines b.
Proof. unfold b_lines. lia. Qed.

Lemma total_lines_nonneg (l : list string) : 0 <= total_lines l.
Proof.
  induction l as [|b l IH]; simpl; [lia|].
  pose proof (b_lines_nonneg b). lia.
Qed.

Lemma total_lines_app (l1 l2 : list string) :
  total_lines (l1 ++ l2) = total_lines l1 + total_lines l2.
Proof. induction l1 as [|b l1 IH]; simpl; lia. Qed.

Lemma total_lines_elem (b : string) (l : list string) :
  In b l -> b_lines b <= total_lines l.
Proof.
  induction l as [|x l IH]; simpl; [tauto|].
  pose proof (total_lines_nonneg l). pose proof (b_lines_nonneg x).
  intros [->|Hin]; [lia|]. specialize (IH Hin). lia.
Qed.

Lemma total_lines_skipn (k : nat) (l : list string) :
  total_lines (skipn k l) <= total_lines l.
Proof.
  revert k. induction l as [|x l IH]; intros [|k]; simpl; try lia.
  specialize (IH k). pose proof (b_lines_nonneg x). lia.
Qed.

(** Every block starts with the user heading and ends with the rule:
    five line breaks at least. *)
Lemma build_block_lines (w : world) (req : json) (b : string) :
  build_block w req = Ok b -> 5 <= b_lines b.
Proof.
  unfold build_block, mbind, result_bind, bind.
  destruct (get req "message" (JObj [])) as [mo|]; [|discriminate].
  destruct (get mo "text" (JStr "")) as [m|]; [|discriminate].
  destruct (get req "response" (JArr [])) as [rs|]; [|discriminate].
  destruct (iter rs) as [items|]; [|discriminate].
  destruct (foldM add_response "" items) as [full|]; [|discriminate].
  intros [= <-]. unfold b_lines.
  destruct (negb (String.eqb full "") && strip_nonempty full);
    simpl; rewrite !count_nl_app; simpl; lia.
Qed.

Lemma build_blocks_fold (w : world) (reqs : list json) :
  forall acc blocks,
    foldM (fun blocks req => b ← build_block w req; Ok (blocks ++ [b])) acc reqs
      = Ok blocks ->
    exists bs, blocks = acc ++ bs /\ length bs = length reqs /\
               Forall (fun b => 5 <= b_lines b) bs.
Proof.
  induction reqs as [|req reqs IH]; simpl; intros acc blocks H.
  - injection H as <-. exists []. rewrite app_nil_r. auto.
  - unfold mbind, result_bind, bind in H.
    destruct (build_block w req) as [b|] eqn:Hb; [|discriminate].
    apply IH in H as (bs & -> & Hlen & Hall).
    exists (b :: bs). rewrite <- app_assoc. simpl. split; [reflexivity|].
    split; [congruence|]. constructor; [eapply build_block_lines; eauto|assumption].
Qed.

Lemma iter_truthy (requests : json) (reqs : list json) :
  truthy requests = true -> iter requests = Ok reqs -> reqs <> [].
Proof.
  destruct requests as [| | |s|items|fields]; simpl; try discriminate.
  - destruct s; simpl; [discriminate|]. intros _ [= <-]. discriminate.
  - destruct items; [discriminate|]. intros _ [= <-]. discriminate.
  - destruct fields; [discriminate|]. intros _ [= <-]. discriminate.
Qed.

(** The blocks that reach the splitter: at least one, each with a
    positive number of lines. *)
Lemma build_blocks_shape (w : world) (requests : json) (blocks : list string) :
  truthy requests = true ->
  build_blocks w requests = Ok blocks ->
  blocks <> [] /\ Forall (fun b => 0 < b_lines b) blocks.
Proof.
  intros Ht. unfold build_blocks, mbind, result_bind, bind.
  destruct (iter requests) as [reqs|] eqn:Hi; [|discriminate].
  intros H. apply build_blocks_fold in H as (bs & -> & Hlen & Hall).
  pose proof (iter_truthy _ _ Ht Hi) as Hne. simpl. split.
  - destruct bs; [destruct reqs; simpl in *; congruence|discriminate].
  - eapply Forall_impl; [exact Hall|]. simpl. intros; lia.
Qed.

End BlockFacts.

(** ** The chunk-mode loop *)

Section ChunkLoop.

Import Handover Partition.

Variable chunk_size : Z.

Lemma chunk_loop_concat (blocks : list string) :
  forall idx lines cur,
    concat (map snd (chunk_loop chunk_size blocks idx lines cur)) = cur ++ blocks.
Proof.
  induction blocks as [|block rest IH]; intros idx lines cur; simpl.
  - destruct cur; simpl; [reflexivity|]. rewrite !app_nil_r. reflexivity.
  - destruct ((lines + b_lines block >? chunk_size) && (lines >? 0)); simpl.
    + rewrite IH. reflexivity.
    + rewrite IH, <- app_assoc. reflexivity.
Qed.

Lemma chunk_loop_indices (blocks : list string) :
  forall idx lines cur,
    map fst (chunk_loop chunk_size blocks idx lines cur)
    = seq idx (length (chunk_loop chunk_size blocks idx lines cur)).
Proof.
  induction blocks as [|block rest IH]; intros idx lines cur; simpl.
  - destruct cur; reflexivity.
  - destruct ((lines + b_lines block >? chunk_size) && (lines >? 0)); simpl.
    + rewrite IH. reflexivity.
    + apply IH.
Qed.

Lemma total_lines_single (b : string) : total_lines [b] = b_lines b.
Proof. simpl. lia. Qed.

Lemma total_lines_snoc (cur : list string) (b : string) :
  total_lines (cur ++ [b]) = total_lines cur + b_lines b.
Proof. rewrite total_lines_app, total_lines_single. reflexivity. Qed.

(** The loop flushes only a chunk that holds a block. *)
Lemma chunk_loop_nonempty (blocks : list string) :
  forall idx cur,
    Forall (fun c => c <> []) (map snd (chunk_loop chunk_size blocks idx (total_lines cur) cur)).
Proof.
  induction blocks as [|block rest IH]; intros idx cur; simpl.
  - destruct cur; simpl; [constructor|]. constructor; [discriminate|constructor].
  - destruct ((total_lines cur + b_lines block >? chunk_size) && (total_lines cur >? 0))
      eqn:Hc; simpl.
    + apply andb_true_iff in Hc as [_ Hpos]. constructor.
      * intros ->. simpl in Hpos. lia.
      * rewrite <- total_lines_single. apply IH.
    + rewrite <- total_lines_snoc. apply IH.
Qed.

Lemma total_zero_nil (cur : list string) :
  Forall (fun b => 0 < b_lines b) cur -> total_lines cur <= 0 -> cur = [].
Proof.
  destruct cur as [|x cur]; [reflexivity|].
  intros Hall Hz. inversion Hall; subst. simpl in Hz.
  pose proof (total_lines_nonneg cur). lia.
Qed.

Lemma admissible_single (b : string) : admissible chunk_size [b].
Proof.
  destruct (Z_le_gt_dec (b_lines b) chunk_size) as [Hle|Hgt].
  - left. rewrite total_lines_single. exact Hle.
  - right. exists b. split; [reflexivity|lia].
Qed.

(** With blocks of positive weight, every flushed chunk obeys the
    weight constraint. *)
Lemma chunk_loop_admissible (blocks : list string) :
  forall idx cur,
    Forall (fun b => 0 < b_lines b) blocks ->
    Forall (fun b => 0 < b_lines b) cur ->
    admissible chunk_size cur ->
    Forall (admissible chunk_size)
           (map snd (chunk_loop chunk_size blocks idx (total_lines cur) cur)).
Proof.
  induction blocks as [|block rest IH]; intros idx cur Hbs Hcur Hadm; simpl.
  - destruct cur; simpl; [constructor|]. constructor; [assumption|constructor].
  - inversion Hbs as [|? ? Hb Hrest]; subst.
    destruct ((total_lines cur + b_lines block >? chunk_size) && (total_lines cur >? 0))
      eqn:Hc; simpl.
    + constructor; [assumption|].
      rewrite <- total_lines_single. apply IH; auto using admissible_single.
    + rewrite <- total_lines_snoc. apply IH; auto.
      * apply Forall_app. split; auto.
      * apply andb_false_iff in Hc as [Hfit|Hzero].
        -- left. rewrite total_lines_snoc. lia.
        -- rewrite (total_zero_nil cur Hcur) by lia. apply admissible_single.
Qed.

(** A chunk is flushed exactly because the next block did not fit, and
    the pending blocks open the next chunk. *)
Lemma chunk_loop_closed (blocks : list string) :
  forall idx cur,
    let out := map snd (chunk_loop chunk_size blocks idx (total_lines cur) cur) in
    closed_when_full chunk_size out /\
    (cur <> [] -> exists tl rest, out = (cur ++ tl) :: rest).
Proof.
  induction blocks as [|block rest IH]; intros idx cur; simpl.
  - destruct cur as [|x cur]; simpl.
    + split; [constructor|congruence].
    + split; [constructor|]. intros _. exists [], []. rewrite app_nil_r. reflexivity.
  - destruct ((total_lines cur + b_lines block >? chunk_size) && (total_lines cur >? 0))
      eqn:Hc; simpl.
    + apply andb_true_iff in Hc as [Hfull _].
      specialize (IH (S idx) [block]). rewrite total_lines_single in IH.
      destruct IH as [Hcl Hshape].
      destruct Hshape as (tl & rest' & Heq); [discriminate|].
      rewrite Heq in *. simpl in *. split.
      * constructor; [lia|assumption].
      * intros _. exists [], ((block :: tl) :: rest'). rewrite app_nil_r. reflexivity.
    + specialize (IH idx (cur ++ [block])). rewrite total_lines_snoc in IH.
      destruct IH as [Hcl Hshape]. split; [assumption|].
      intros _. destruct Hshape as (tl & rest' & Heq); [destruct cur; discriminate|].
      exists (block :: tl), rest'. rewrite Heq, <- app_assoc. reflexivity.
Qed.

(** *** The chunks of [blocks] *)

Lemma chunks_of_plan_files (w : world) (output_file : Path) (blocks : list string) :
  chunks_of (plan_files w output_file chunk_size blocks) = split chunk_size blocks.
Proof.
  unfold chunks_of, plan_files, split.
  destruct (total_lines blocks <=? chunk_size); simpl; [reflexivity|].
  rewrite map_map. reflexivity.
Qed.

Lemma split_concat (blocks : list string) :
  concat (split chunk_size blocks) = blocks.
Proof.
  unfold split. destruct (total_lines blocks <=? chunk_size); simpl.
  - apply app_nil_r.
  - apply (chunk_loop_concat blocks 1%nat 0 []).
Qed.

Lemma split_nonempty (blocks : list string) :
  blocks <> [] -> Forall (fun c => c <> []) (split chunk_size blocks).
Proof.
  intros Hne. unfold split. destruct (total_lines blocks <=? chunk_size).
  - constructor; [assumption|constructor].
  - apply (chunk_loop_nonempty blocks 1%nat []).
Qed.

Lemma split_admissible (blocks : list string) :
  0 < chunk_size ->
  Forall (fun b => 0 < b_lines b) blocks ->
  Forall (admissible chunk_size) (split chunk_size blocks).
Proof.
  intros Hcs Hpos. unfold split.
  destruct (total_lines blocks <=? chunk_size) eqn:Ht.
  - constructor; [|constructor]. left. lia.
  - apply (chunk_loop_admissible blocks 1%nat []); auto.
    left. simpl. lia.
Qed.

Lemma split_closed (blocks : list string) :
  closed_when_full chunk_size (split chunk_size blocks).
Proof.
  unfold split. destruct (total_lines blocks <=? chunk_size).
  - constructor.
  - apply (chunk_loop_closed blocks 1%nat []).
Qed.

(** The guard of the loop tests the running line count, not whether
    the pending chunk is empty. Every block [build_block] makes has line
    breaks, so the two agree there; a block without any would not count
    as content of the chunk it opens. *)
Example chunk_loop_zero_line_block :
  map snd (chunk_loop 5 ["x"; Demo.newlines 10] 1 0 []) = [["x"; Demo.newlines 10]].
Proof. reflexivity. Qed.

End ChunkLoop.

(** ** Fewest chunks *)

Section Minimality.

Import Handover Partition.

Variable max_weight : Z.
Hypothesis max_weight_pos : 0 < max_weight.

Lemma admissible_nil : admissible max_weight [].
Proof. left. simpl. lia. Qed.

Lemma admissible_skipn (k : nat) (g : list string) :
  admissible max_weight g -> admissible max_weight (skipn k g).
Proof.
  intros [Hle|(b & -> & Hb)].
  - left. pose proof (total_lines_skipn k g). lia.
  - destruct k as [|k]; simpl.
    + right. exists b. auto.
    + rewrite skipn_nil. apply admissible_nil.
Qed.

(** Removing a prefix of the blocks from a partition leaves a partition
    of the rest with no more groups, each still within the constraint. *)
Lemma drop_blocks_partition (p : list (list string)) :
  forall k,
    Forall (admissible max_weight) p ->
    concat (drop_blocks k p) = skipn k (concat p) /\
    Forall (admissible max_weight) (drop_blocks k p) /\
    (length (drop_blocks k p) <= length p)%nat.
Proof.
  induction p as [|g p IH]; intros k Hall; simpl.
  - rewrite skipn_nil. repeat split; [constructor|lia].
  - inversion Hall as [|? ? Hg Hp]; subst. rewrite skipn_app.
    destruct (k <=? length g)%nat eqn:Hk.
    + apply Nat.leb_le in Hk. simpl.
      replace (k - length g)%nat with O by lia. simpl.
      repeat split; [|lia]. constructor; [apply admissible_skipn|]; assumption.
    + apply Nat.leb_gt in Hk.
      destruct (IH (k - length g)%nat Hp) as (Hc & Ha & Hl).
      rewrite skipn_all2 by lia. simpl. repeat split; [assumption..|lia].
Qed.

Lemma closed_when_full_tail (c : list string) (out : list (list string)) :
  closed_when_full max_weight (c :: out) -> closed_when_full max_weight out.
Proof. intros H. inversion H; subst; [constructor|assumption]. Qed.

(** A group of an admissible partition cannot reach past a chunk that
    was closed because the next block did not fit. *)
Lemma group_within_chunk (c l g : list string) (out p : list (list string)) :
  closed_when_full max_weight (c :: out) ->
  Forall (fun c => c <> []) (c :: out) ->
  admissible max_weight g ->
  g = c ++ l ->
  concat out = l ++ concat p ->
  l = [].
Proof.
  intros Hcl Hne Hadm -> Hcat.
  destruct l as [|b0 l]; [reflexivity|exfalso].
  inversion Hne as [|? ? Hc Hout]; subst.
  inversion Hcl as [| |? b t rest Hfull Hrest]; subst.
  - discriminate.
  - simpl in Hcat. injection Hcat as -> _.
    destruct Hadm as [Hle|(x & Heq & _)].
    + rewrite total_lines_app in Hle. simpl in Hle.
      pose proof (total_lines_nonneg l). lia.
    + destruct c as [|y c]; [congruence|].
      destruct c; discriminate.
Qed.

(** The greedy chunks are as few as any admissible partition of the
    same blocks. *)
Lemma closed_when_full_minimal (out : list (list string)) :
  closed_when_full max_weight out ->
  Forall (fun c => c <> []) out ->
  forall p,
    Forall (admissible max_weight) p ->
    concat p = concat out ->
    (length out <= length p)%nat.
Proof.
  induction out as [|c out IH]; intros Hcl Hne p Hadm Hcat; simpl; [lia|].
  pose proof (closed_when_full_tail _ _ Hcl) as Hcl'.
  inversion Hne as [|? ? Hc Hne']; subst.
  destruct p as [|g p]; simpl in Hcat.
  - symmetry in Hcat. apply app_eq_nil in Hcat as [-> _]. congruence.
  - inversion Hadm as [|? ? Hg Hp]; subst. simpl.
    apply app_eq_app in Hcat as [l [[Hgl Hrest]|[Hcl2 Hrest]]].
    + pose proof (group_within_chunk c l g out p Hcl Hne Hg Hgl Hrest) as ->.
      simpl in Hrest. specialize (IH Hcl' Hne' p Hp (eq_sym Hrest)). lia.
    + destruct (drop_blocks_partition p (length l) Hp) as (Hd & Ha & Hlen).
      assert (Hcat' : concat (drop_blocks (length l) p) = concat out).
      { rewrite Hd, Hrest, skipn_app, skipn_all, Nat.sub_diag. reflexivity. }
      specialize (IH Hcl' Hne' _ Ha Hcat'). lia.
Qed.

End Minimality.

(** ** The chunks of an export *)

Section ExportChunks.

Import Handover Partition.

Lemma closed_when_full_at (max_weight : Z) (before : list (list string)) :
  forall c b t after,
    closed_when_full max_weight (before ++ c :: (b :: t) :: after) ->
    max_weight < total_lines c + b_lines b.
Proof.
  induction before as [|x before IH]; intros c b t after H; simpl in H.
  - inversion H; subst. assumption.
  - apply closed_when_full_tail in H. eapply IH; eauto.
Qed.

Lemma chunk_blocks_positive (chunks : list (list string)) (c : list string) :
  Forall (fun b => 0 < b_lines b) (concat chunks) ->
  In c chunks ->
  Forall (fun b => 0 < b_lines b) c.
Proof.
  intros Hall Hin. rewrite List.Forall_forall in *.
  intros b Hb. apply Hall. apply in_concat. exists c. auto.
Qed.

Lemma total_lines_positive (c : list string) :
  c <> [] -> Forall (fun b => 0 < b_lines b) c -> 0 < total_lines c.
Proof.
  destruct c as [|x c]; [congruence|]. intros _ Hall.
  inversion Hall; subst. simpl. pose proof (total_lines_nonneg c). lia.
Qed.

(** C1: for the blocks built from any request list and any positive
    [chunk_size], the chunks written by the export, concatenated in order,
    are exactly the block sequence; no chunk is empty; every chunk obeys
    the weight constraint; and no partition of the blocks into consecutive
    groups obeying that constraint has fewer groups. *)
Theorem export_chunks_partition_minimal
    (w : world) (output_file : Path) (chunk_size : Z)
    (requests : json) (blocks : list string) :
  0 < chunk_size ->
  truthy requests = true ->
  build_blocks w requests = Ok blocks ->
  let chunks := chunks_of (plan_files w output_file chunk_size blocks) in
  concat chunks = blocks /\
  Forall (fun c => c <> []) chunks /\
  Forall (admissible chunk_size) chunks /\
  forall p : list (list string),
    concat p = blocks ->
    Forall (admissible chunk_size) p ->
    (length chunks <= length p)%nat.
Proof.
  intros Hcs Ht Hb chunks. subst chunks. rewrite chunks_of_plan_files.
  destruct (build_blocks_shape w requests blocks Ht Hb) as [Hne Hpos].
  pose proof (split_concat chunk_size blocks) as Hcat.
  pose proof (split_nonempty chunk_size blocks Hne) as Hfull.
  repeat split; auto using split_admissible.
  intros p Hp Hadm.
  apply (closed_when_full_minimal chunk_size Hcs); auto using split_closed.
  congruence.
Qed.

Lemma export_chunks_partition_minimal_witness :
  let chunks := chunks_of (plan_files (Demo.world_of (Ok JNull)) Demo.chat_out 20 Demo.three_blocks) in
  concat chunks = Demo.three_blocks /\
  Forall (fun c => c <> []) chunks /\
  Forall (admissible 20) chunks /\
  forall p : list (list string),
    concat p = Demo.three_blocks ->
    Forall (admissible 20) p ->
    (length chunks <= length p)%nat.
Proof.
  apply (export_chunks_partition_minimal
           (Demo.world_of (Ok JNull)) Demo.chat_out 20 Demo.three_requests Demo.three_blocks);
    [lia | reflexivity | reflexivity].
Defined.

(** C2: the chunks of an export hold the blocks, accumulated in order:
    concatenated they are the block sequence, there is at least one chunk
    and none is empty. A chunk ends before a block exactly when the chunk
    already has positive weight and the block would take it past
    [chunk_size]: this holds at every boundary between two chunks and
    fails before every later block inside a chunk. Hence each chunk weighs
    at most [chunk_size] unless it is one block heavier than
    [chunk_size]. *)
Theorem export_chunks_boundaries
    (w : world) (output_file : Path) (chunk_size : Z)
    (requests : json) (blocks : list string) :
  0 < chunk_size ->
  truthy requests = true ->
  build_blocks w requests = Ok blocks ->
  let chunks := chunks_of (plan_files w output_file chunk_size blocks) in
  concat chunks = blocks /\
  chunks <> [] /\
  Forall (fun c => c <> []) chunks /\
  (forall before c b t after,
      chunks = before ++ c :: (b :: t) :: after ->
      0 < total_lines c /\ chunk_size < total_lines c + b_lines b) /\
  (forall before pre b post after,
      chunks = before ++ (pre ++ b :: post) :: after ->
      pre <> [] ->
      ~ (0 < total_lines pre /\ chunk_size < total_lines pre + b_lines b)) /\
  Forall (admissible chunk_size) chunks.
Proof.
  intros Hcs Ht Hb chunks. subst chunks. rewrite chunks_of_plan_files.
  destruct (build_blocks_shape w requests blocks Ht Hb) as [Hne Hpos].
  pose proof (split_concat chunk_size blocks) as Hcat.
  pose proof (split_nonempty chunk_size blocks Hne) as Hfull.
  pose proof (split_admissible chunk_size blocks Hcs Hpos) as Hadm.
  pose proof (split_closed chunk_size blocks) as Hcl.
  split; [exact Hcat|].
  split; [intros Hnil; rewrite Hnil in Hcat; simpl in Hcat; congruence|].
  split; [exact Hfull|].
  rewrite <- Hcat in Hpos.
  split; [|split; [|assumption]].
  - intros before c b t after Heq. rewrite Heq in *. split.
    + apply total_lines_positive.
      * rewrite List.Forall_forall in Hfull. apply Hfull.
        apply in_or_app. right. left. reflexivity.
      * apply (chunk_blocks_positive _ _ Hpos).
        apply in_or_app. right. left. reflexivity.
    + eapply closed_when_full_at; eauto.
  - intros before pre b post after Heq Hpre [_ Hover]. rewrite Heq in *.
    rewrite List.Forall_forall in Hadm.
    destruct (Hadm (pre ++ b :: post)) as [Hle|(x & Hx & _)].
    + apply in_or_app. right. left. reflexivity.
    + rewrite total_lines_app in Hle. simpl in Hle.
      pose proof (total_lines_nonneg post). lia.
    + destruct pre as [|y pre]; [congruence|]. destruct pre; discriminate.
Qed.

Lemma export_chunks_boundaries_witness :
  let chunks := chunks_of (plan_files (Demo.world_of (Ok JNull)) Demo.chat_out 20 Demo.three_blocks) in
  concat chunks = Demo.three_blocks /\
  chunks <> [] /\
  Forall (fun c => c <> []) chunks /\
  (forall before c b t after,
      chunks = before ++ c :: (b :: t) :: after ->
      0 < total_lines c /\ 20 < total_lines c + b_lines b) /\
  (forall before pre b post after,
      chunks = before ++ (pre ++ b :: post) :: after ->
      pre <> [] ->
      ~ (0 < total_lines pre /\ 20 < total_lines pre + b_lines b)) /\
  Forall (admissible 20) chunks.
Proof.
  apply (export_chunks_boundaries
           (Demo.world_of (Ok JNull)) Demo.chat_out 20 Demo.three_requests Demo.three_blocks);
    [lia | reflexivity | reflexivity].
Defined.

(** The same three blocks under a limit of 20: the first two are
    accumulated into one chunk and the third, which would take it past
    the limit, starts the next. *)
Example export_chunks_accumulate :
  map (fun c => (length c, total_lines c))
      (chunks_of (plan_files (Demo.world_of (Ok JNull)) Demo.chat_out 20 Demo.three_blocks))
  = [(2%nat, 16); (1%nat, 8)].
Proof. vm_compute. reflexivity. Qed.

(** C3: in the chunks of an export every block is kept, whole and in
    order, and a block with more lines than [chunk_size] is the only block
    of its chunk. *)
Theorem export_oversized_block_alone
    (w : world) (output_file : Path) (chunk_size : Z)
    (requests : json) (blocks : list string) :
  0 < chunk_size ->
  truthy requests = true ->
  build_blocks w requests = Ok blocks ->
  let chunks := chunks_of (plan_files w output_file chunk_size blocks) in
  concat chunks = blocks /\
  forall c b, In c chunks -> In b c -> chunk_size < b_lines b -> c = [b].
Proof.
  intros Hcs Ht Hb chunks. subst chunks. rewrite chunks_of_plan_files.
  destruct (build_blocks_shape w requests blocks Ht Hb) as [Hne Hpos].
  split; [apply split_concat|].
  intros c b Hc Hin Hbig.
  pose proof (split_admissible chunk_size blocks Hcs Hpos) as Hadm.
  rewrite List.Forall_forall in Hadm.
  destruct (Hadm c Hc) as [Hle|(x & -> & _)].
  - pose proof (total_lines_elem b c Hin). lia.
  - destruct Hin as [->|[]]. reflexivity.
Qed.

Lemma export_oversized_block_alone_witness :
  let chunks := chunks_of (plan_files (Demo.world_of (Ok JNull)) Demo.chat_out 3 Demo.three_blocks) in
  concat chunks = Demo.three_blocks /\
  forall c b, In c chunks -> In b c -> 3 < b_lines b -> c = [b].
Proof.
  apply (export_oversized_block_alone
           (Demo.world_of (Ok JNull)) Demo.chat_out 3 Demo.three_requests Demo.three_blocks);
    [lia | reflexivity | reflexivity].
Defined.

End ExportChunks.

(** ** File names and failures of an export *)

Section ExportFiles.

Import Handover.

Lemma string_length_app (a b : string) :
  String.length (a +:+ b) = (String.length a + String.length b)%nat.
Proof. induction a as [|c a IH]; simpl; [reflexivity|]. rewrite IH. reflexivity. Qed.

Lemma string_app_assoc (a b c : string) : (a +:+ b) +:+ c = a +:+ (b +:+ c).
Proof.
  induction a as [|x a IH]; [reflexivity|].
  change (String x ((a +:+ b) +:+ c) = String x (a +:+ (b +:+ c))).
  rewrite IH. reflexivity.
Qed.

Lemma zeros_length (n : nat) : String.length (zeros n) = n.
Proof. induction n as [|n IH]; simpl; [reflexivity|]. rewrite IH. reflexivity. Qed.

Example fmt_03d_7 : fmt_03d 7 = "007".
Proof. reflexivity. Qed.

Example fmt_03d_1234 : fmt_03d 1234 = "1234".
Proof. reflexivity. Qed.

Lemma fmt_03d_width (idx : nat) : (3 <= String.length (fmt_03d idx))%nat.
Proof. unfold fmt_03d. rewrite string_length_app, zeros_length. lia. Qed.

Lemma string_app_nil_r (s : string) : s +:+ "" = s.
Proof.
  induction s as [|c s IH]; [reflexivity|].
  change (String c (s +:+ "") = String c s). rewrite IH. reflexivity.
Qed.

Lemma str_take_drop (i : nat) (s : string) : str_take i s +:+ str_drop i s = s.
Proof.
  revert s. induction i as [|i IH]; intros [|c s]; try reflexivity.
  change (String c (str_take i s +:+ str_drop i s) = String c s).
  rewrite IH. reflexivity.
Qed.

(** pathlib cuts a name in two: [p.stem + p.suffix == p.name]. *)
Lemma stem_suffix_name (p : Path) : stem p +:+ suffix p = name p.
Proof.
  unfold stem, suffix. destruct (suffix_index (name p));
    [apply str_take_drop|apply string_app_nil_r].
Qed.

Lemma part_name_numbered (output_file : Path) (idx : nat) :
  name (part_path output_file idx)
  = stem output_file +:+ "_part" +:+ fmt_03d idx +:+ suffix output_file.
Proof. reflexivity. Qed.

Lemma part_name_not_plain (output_file : Path) (idx : nat) :
  name (part_path output_file idx) <> name output_file.
Proof.
  intros H. apply (f_equal String.length) in H.
  rewrite part_name_numbered, <- (stem_suffix_name output_file) in H.
  rewrite !string_length_app in H. simpl in H. lia.
Qed.

Lemma write_ok_written (w : world) (p : Path) :
  write_ok w p = true <-> write_file w p = Written.
Proof.
  unfold write_ok. destruct (write_file w p); split; congruence.
Qed.

Lemma write_all_ok (w : world) (files : list File) :
  forall acc created fs,
    write_all w files acc = (Ok created, fs) ->
    created = map f_path files /\ fs = acc ++ files.
Proof.
  induction files as [|f files IH]; intros acc created fs; simpl.
  - intros [= <- <-]. rewrite app_nil_r. auto.
  - destruct (write_file w (f_path f)); [|discriminate..].
    destruct (write_all w files (acc ++ [f])) as [[created'|e] fs'] eqn:Hw;
      [|discriminate].
    intros [= <- <-]. apply IH in Hw as [-> ->].
    rewrite <- app_assoc. auto.
Qed.

(** When every write succeeds the planned files are all written, in
    order. *)
Lemma write_all_writable (w : world) (files : list File) :
  (forall p, write_ok w p = true) ->
  forall acc, write_all w files acc = (Ok (map f_path files), acc ++ files).
Proof.
  intros Hok. induction files as [|f files IH]; intros acc; simpl.
  - rewrite app_nil_r. reflexivity.
  - rewrite (proj1 (write_ok_written w _) (Hok _)), IH, <- app_assoc. reflexivity.
Qed.

(** C6 (as the code has it): the export writes one file under the plain
    output name exactly when the blocks have at most [chunk_size] lines in
    total; otherwise each chunk goes to [<stem>_part<NNN><suffix>] with the
    chunk's number, counted from 1 and zero-padded to three digits, also
    when there is a single chunk. More than one file is written only with
    numbered names, and a numbered name is never the plain one. *)
Theorem export_file_names
    (w : world) (output_file : Path) (chunk_size : Z) (blocks : list string) :
  let files := plan_files w output_file chunk_size blocks in
  (total_lines blocks <= chunk_size -> map f_path files = [output_file]) /\
  (chunk_size < total_lines blocks ->
     map f_path files = map (part_path output_file) (seq 1 (length files))) /\
  ((1 < length files)%nat -> chunk_size < total_lines blocks) /\
  (forall idx,
      name (part_path output_file idx)
      = stem output_file +:+ "_part" +:+ fmt_03d idx +:+ suffix output_file /\
      (3 <= String.length (fmt_03d idx))%nat /\
      name (part_path output_file idx) <> name output_file).
Proof.
  intros files. subst files. unfold plan_files.
  destruct (total_lines blocks <=? chunk_size) eqn:Ht.
  - apply Z.leb_le in Ht. repeat split;
      auto using part_name_numbered, fmt_03d_width, part_name_not_plain.
    + intros; lia.
    + simpl. lia.
  - apply Z.leb_gt in Ht. repeat split;
      auto using part_name_numbered, fmt_03d_width, part_name_not_plain.
    + intros; lia.
    + intros _. rewrite length_map.
      rewrite <- chunk_loop_indices, !map_map. reflexivity.
Qed.

Lemma export_file_names_witness :
  map f_path (plan_files (Demo.world_of (Ok JNull)) Demo.chat_out 20 Demo.three_blocks)
  = map (part_path Demo.chat_out)
        (seq 1 (length (plan_files (Demo.world_of (Ok JNull)) Demo.chat_out 20
                          Demo.three_blocks))).
Proof.
  apply (proj1 (proj2 (export_file_names
                         (Demo.world_of (Ok JNull)) Demo.chat_out 20 Demo.three_blocks))).
  vm_compute. reflexivity.
Defined.

(** C6, as stated, fails: one request whose block has more than
    [chunk_size] lines is exported as a single chunk, and that chunk is
    written to the numbered name. *)
Lemma single_chunk_numbered :
  let o := export_to_markdown
             (Demo.world_of (Ok (Demo.chat [Demo.newlines 500]))) Demo.chat_out 500 in
  length (chunks_of (written o)) = 1%nat /\
  map name (returned o) = ["vscode_chat_history_part001.md"] /\
  String.eqb "vscode_chat_history_part001.md" (name Demo.chat_out) = false.
Proof. vm_compute. repeat split. Qed.

Lemma get_requests_missing (fields : list (string * json)) :
  assoc "requests" fields = None \/ assoc "requests" fields = Some (JArr []) ->
  get (JObj fields) "requests" (JArr []) = Ok (JArr []).
Proof. simpl. intros [->| ->]; reflexivity. Qed.

(** C10: a session whose [requests] entry is missing or an empty list
    gives an empty result with nothing written and nothing printed; and
    every call either writes all its files and returns their paths, or
    meets a failure (reading, decoding, building the blocks, or a write),
    prints it and returns the empty list. *)
Theorem export_empty_or_failed
    (w : world) (output_file : Path) (chunk_size : Z) :
  let o := export_to_markdown w output_file chunk_size in
  (forall fields,
      read_json w = Ok (JObj fields) ->
      assoc "requests" fields = None \/ assoc "requests" fields = Some (JArr []) ->
      o = {| returned := []; written := []; printed := [] |}) /\
  ((exists files,
       export_plan w output_file chunk_size = Ok files /\
       o = {| returned := map f_path files; written := files; printed := [] |})
   \/
   (exists e,
       (export_plan w output_file chunk_size = Raise e \/
        exists files,
          export_plan w output_file chunk_size = Ok files /\
          fst (write_all w files []) = Raise e) /\
       returned o = [] /\
       printed o = ["Failed to export chat: " +:+ e])).
Proof.
  intros o. subst o. split.
  - intros fields Hread Hreq. unfold export_to_markdown, export_plan.
    rewrite Hread. unfold mbind, result_bind, bind.
    rewrite (get_requests_missing fields Hreq). reflexivity.
  - unfold export_to_markdown.
    destruct (export_plan w output_file chunk_size) as [files|e] eqn:Hplan.
    + destruct (write_all w files []) as [[created|e] fs] eqn:Hw.
      * left. exists files. split; [reflexivity|].
        apply write_all_ok in Hw as [-> ->]. reflexivity.
      * right. exists e. simpl. split; [|split; reflexivity].
        right. exists files. rewrite Hw. auto.
    + right. exists e. simpl. auto.
Qed.

(** When the session decodes and every write succeeds, the files on
    disk are the planned ones: their chunks are the chunks of the blocks. *)
Lemma export_writes_plan
    (w : world) (output_file : Path) (chunk_size : Z)
    (data requests : json) (blocks : list string) :
  read_json w = Ok data ->
  get data "requests" (JArr []) = Ok requests ->
  truthy requests = true ->
  build_blocks w requests = Ok blocks ->
  (forall p, write_ok w p = true) ->
  export_to_markdown w output_file chunk_size
  = {| returned := map f_path (plan_files w output_file chunk_size blocks);
       written := plan_files w output_file chunk_size blocks;
       printed := [] |}.
Proof.
  intros Hread Hget Ht Hb Hok. unfold export_to_markdown, export_plan.
  rewrite Hread. unfold mbind, result_bind, bind. rewrite Hget, Ht. simpl.
  rewrite Hb, (write_all_writable w _ Hok). reflexivity.
Qed.

Lemma export_empty_or_failed_witness :
  export_to_markdown (Demo.world_of (Ok (JObj [("version", JNum (QArith_base.Qmake 3 1))]))) Demo.chat_out 500
  = {| returned := []; written := []; printed := [] |}.
Proof.
  apply (proj1 (export_empty_or_failed
                  (Demo.world_of (Ok (JObj [("version", JNum (QArith_base.Qmake 3 1))]))) Demo.chat_out 500)
           [("version", JNum (QArith_base.Qmake 3 1))]);
    [reflexivity | left; reflexivity].
Defined.

(** Three requests of 8 lines each under a limit of 20: two parts. *)
Example export_three_requests :
  let o := export_to_markdown
             (Demo.world_of (Ok (Demo.chat ["a"; "b"; "c"]))) Demo.chat_out 20 in
  map name (returned o)
    = ["vscode_chat_history_part001.md"; "vscode_chat_history_part002.md"] /\
  map (fun c => length c) (chunks_of (written o)) = [2%nat; 1%nat].
Proof. vm_compute. split; reflexivity. Qed.

(** The same session under the default limit: one file, plainly named. *)
Example export_small_session :
  let o := export_to_markdown
             (Demo.world_of (Ok (Demo.chat ["a"; "b"; "c"]))) Demo.chat_out 500 in
  returned o = [Demo.chat_out] /\
  map (fun c => length c) (chunks_of (written o)) = [3%nat].
Proof. vm_compute. split; reflexivity. Qed.

(** A session file that does not parse, and one whose top level is a
    list: the failure is printed and the result is empty. *)
Example export_unreadable :
  export_to_markdown (Demo.world_of (Raise "Expecting value: line 1 column 1 (char 0)"))
    Demo.chat_out 500
  = {| returned := []; written := [];
       printed := ["Failed to export chat: Expecting value: line 1 column 1 (char 0)"] |}.
Proof. reflexivity. Qed.

Example export_not_a_dict :
  returned (export_to_markdown (Demo.world_of (Ok (JArr []))) Demo.chat_out 500) = [].
Proof. reflexivity. Qed.

(** The second write fails: the first part stays on disk, the result is
    empty. *)
Example export_write_fails :
  let w := Demo.world_failing (Ok (Demo.chat ["a"; "b"; "c"]))
             "vscode_chat_history_part002.md"
             (OpenFails "[Errno 13] Permission denied: 'vscode_chat_history_part002.md'") in
  let o := export_to_markdown w Demo.chat_out 20 in
  returned o = [] /\
  map (fun f => name (f_path f)) (written o) = ["vscode_chat_history_part001.md"].
Proof. vm_compute. split; reflexivity. Qed.

(** The second write fails after [open] has made the file (an answer
    with a character the encoding refuses): the first part is complete,
    the second is left empty, and the result is empty. *)
Example export_write_fails_after_open :
  let w := Demo.world_failing (Ok (Demo.chat ["a"; "b"; "c"]))
             "vscode_chat_history_part002.md"
             (WriteFails "'utf-8' codec can't encode character: surrogates not allowed" "") in
  let o := export_to_markdown w Demo.chat_out 20 in
  returned o = [] /\
  map (fun f => (name (f_path f), length (f_blocks f))) (written o)
    = [("vscode_chat_history_part001.md", 2%nat); ("vscode_chat_history_part002.md", 0%nat)] /\
  map f_content (skipn 1 (written o)) = [""].
Proof. vm_compute. repeat split. Qed.

End ExportFiles.

(** ** The viewer's window *)

Section ViewWindow.

Import View.

Context {A : Type}.

(** With a non-negative start and a stop not before it, a slice is what
    is left after skipping [start] items, cut to [stop - start] items. *)
Lemma slice_window (rs : list A) (start count : Z) :
  0 <= start -> 0 <= count ->
  slice rs start (start + count)
  = firstn (Z.to_nat count) (skipn (Z.to_nat start) rs).
Proof.
  intros Hs Hc. unfold slice, clamp_index.
  destruct (start <? 0) eqn:E1; [lia|].
  destruct (start + count <? 0) eqn:E2; [lia|].
  set (len := Z.of_nat (length rs)).
  destruct (Z_le_gt_dec start len) as [Hin|Hout].
  - rewrite (Z.min_l start len) by lia.
    destruct (Z_le_gt_dec (start + count) len) as [Hfit|Hclip].
    + rewrite Z.min_l by lia. f_equal. lia.
    + rewrite Z.min_r by lia.
      rewrite !firstn_all2; [reflexivity| |]; rewrite length_skipn; lia.
  - rewrite !Z.min_r by lia.
    replace (skipn (Z.to_nat start) rs) with (@nil A)
      by (symmetry; apply skipn_all2; lia).
    replace (skipn (Z.to_nat len) rs) with (@nil A)
      by (symmetry; apply skipn_all2; lia).
    rewrite !firstn_nil. reflexivity.
Qed.

Lemma window_length (rs : list A) (start count : Z) :
  0 <= start -> 0 <= count ->
  Z.of_nat (length (firstn (Z.to_nat count) (skipn (Z.to_nat start) rs)))
  = Z.min count (Z.max 0 (Z.of_nat (length rs) - start)).
Proof. intros Hs Hc. rewrite length_firstn, length_skipn. lia. Qed.

End ViewWindow.

Section ViewClaims.

Import View.



(** C5 (as the code has it): with [--full] the window is the whole
    result list, whatever the offset and the limit, no range is announced
    and no "more" line is printed, so the remainder is 0. *)
Theorem view_window_full {A : Type}
    (id tool : option string) (list_flag : bool) (limit offset : Z) (rs : list A) :
  let a := {| run_id := id; list_flag := list_flag; tool := tool;
              limit := limit; offset := offset; full := true |} in
  display_results a rs = rs /\
  length (display_results a rs) = length rs /\
  shown_range a rs = None /\
  more_count a rs = None /\
  remaining a rs = 0.
Proof. intros a. repeat split. Qed.

(** C5, as stated, fails: with [--full] and offset 1 all three results
    are shown, not the two that start at the offset. *)
Lemma view_full_ignores_offset :
  display_results (Demo.view_args 10 1 true) ["a"; "b"; "c"] = ["a"; "b"; "c"] /\
  skipn 1 ["a"; "b"; "c"] = ["b"; "c"] /\
  Z.of_nat (length (display_results (Demo.view_args 10 1 true) ["a"; "b"; "c"])) = 3 /\
  Z.of_nat (length ["a"; "b"; "c"]) - View.offset (Demo.view_args 10 1 true) = 2.
Proof. repeat split. Qed.

(** An offset past the end is shown as an empty window, and the
    process still exits with 0. *)
Example view_past_end :
  View.main
    {| list_runs := fun _ => Ok [];
       load_results := fun _ =>
         Ok {| meta_tool := "ai_agent_tool_find"; meta_query := Some "*.txt";
               results := [PathEntry "/a.txt"; PathEntry "/b.txt"] |} |}
    (Demo.view_argv (Some "20250101_000000_txt") None (Some "5") false)
  = {| exit_code := 0;
       stdout := ["--- AI Agent Tool: Result Viewer ---";
                  "Run ID:    20250101_000000_txt";
                  "Tool:      ai_agent_tool_find";
                  "Query:     *.txt";
                  "Total:     2";
                  "------------------------";
                  "Showing results 6 to 2:";
                  "------------------------";
                  "PURPOSE: This tool allows you to peep into large results to conserve YOUR (the LLM's) context."];
       stderr := [] |}.
Proof. reflexivity. Qed.

End ViewClaims.

(** ** The producers' metadata *)

Section ProducerFacts.

Import Producer.

Lemma find_loop_from (items acc : list string) (n : Z) :
  fold_left (fun st item => (fst st ++ [item], snd st + 1)) items (acc, n)
  = (acc ++ items, n + Z.of_nat (length items)).
Proof.
  revert acc n. induction items as [|x items IH]; intros acc n; simpl.
  - rewrite app_nil_r. f_equal. lia.
  - rewrite IH, <- app_assoc. simpl. f_equal. lia.
Qed.

Lemma find_loop_spec (items : list string) :
  find_loop items = (items, Z.of_nat (length items)).
Proof. unfold find_loop. rewrite find_loop_from. reflexivity. Qed.

Lemma grep_loop_from (hits acc : list hit) (n : Z) (found : gset string) :
  fold_left
    (fun st h =>
       let '(results, count, found_in_files) := st in
       (results ++ [h], count + 1, found_in_files ∪ {[ h_path h ]}))
    hits (acc, n, found)
  = (acc ++ hits, n + Z.of_nat (length hits),
     found ∪ list_to_set (map h_path hits)).
Proof.
  revert acc n found. induction hits as [|h hits IH]; intros acc n found; simpl.
  - rewrite app_nil_r, (right_id_L ∅ (∪)). f_equal. f_equal. lia.
  - rewrite IH, <- app_assoc, <- (assoc_L (∪)). simpl.
    f_equal. f_equal. lia.
Qed.

Lemma grep_loop_spec (hits : list hit) :
  grep_loop hits
  = (hits, Z.of_nat (length hits), list_to_set (map h_path hits)).
Proof.
  unfold grep_loop. rewrite grep_loop_from, (left_id_L ∅ (∪)). reflexivity.
Qed.

(** The size of the set of a list is the number of its distinct items. *)
Lemma size_list_to_set_distinct (l : list string) :
  size (list_to_set l : gset string) = length (remove_dups l).
Proof.
  rewrite <- (size_list_to_set (C := gset string) (remove_dups l))
    by apply NoDup_remove_dups.
  f_equal. apply set_eq. intros x.
  rewrite !elem_of_list_to_set, elem_of_remove_dups. reflexivity.
Qed.

Lemma remove_dups_length (l : list string) :
  (length (remove_dups l) <= length l)%nat.
Proof.
  induction l as [|x l IH]; simpl; [lia|].
  destruct (decide_rel elem_of x l); simpl; lia.
Qed.

Lemma remove_dups_nil (l : list string) : remove_dups l = [] <-> l = [].
Proof.
  split; [|intros ->; reflexivity].
  destruct l as [|x l]; [reflexivity|]. intros H.
  assert (Hx : x ∈ remove_dups (x :: l)) by (apply elem_of_remove_dups; left).
  rewrite H in Hx. inversion Hx.
Qed.

(** What [grep_run] hands to [persist_results], when it gets there. *)
Lemma grep_run_persisted (w : world) (query file_pattern : string) (v : argv)
    (meta : grep_metadata) (results : list hit) :
  persisted (grep_run w query file_pattern v) = Some (meta, results) ->
  gm_count meta = Z.of_nat (length results) /\
  gm_file_count meta = Z.of_nat (size (list_to_set (map h_path results) : gset string)).
Proof.
  unfold grep_run, grep_body. rewrite grep_loop_spec.
  destruct (raises _); [discriminate|].
  unfold mbind, result_bind, bind.
  destruct (create_run_dir w "grep" query); [|discriminate].
  destruct (persist_grep w _ _ _); [|discriminate].
  simpl. intros [= <- <-]. simpl. auto.
Qed.

Lemma find_run_persisted (w : world) (pattern : string) (v : argv)
    (meta : find_metadata) (results : list string) :
  persisted (find_run w pattern v) = Some (meta, results) ->
  fm_count meta = Z.of_nat (length results).
Proof.
  unfold find_run, find_body. rewrite find_loop_spec.
  destruct (raises _); [discriminate|].
  unfold mbind, result_bind, bind.
  destruct (create_run_dir w "find" pattern); [|discriminate].
  destruct (persist_find w _ _ _); [|discriminate].
  simpl. intros [= <- <-]. reflexivity.
Qed.

Lemma grep_main_persisted (w : world) (v : argv)
    (meta : grep_metadata) (results : list hit) :
  persisted (grep_main w v) = Some (meta, results) ->
  gm_count meta = Z.of_nat (length results) /\
  gm_file_count meta = Z.of_nat (size (list_to_set (map h_path results) : gset string)).
Proof.
  unfold grep_main.
  destruct (a_positional v) as [|q [|fp [|? ?]]]; simpl; try discriminate;
    apply grep_run_persisted.
Qed.

(** C7: whenever the find tool or the grep tool reaches
    [persist_results], the [count] of the metadata it passes is the length
    of the result list it passes. *)
Theorem persisted_count_is_length (w : world) (v : argv) :
  match persisted (find_main w v) with
  | Some (meta, results) => fm_count meta = Z.of_nat (length results)
  | None => True
  end /\
  match persisted (grep_main w v) with
  | Some (meta, results) => gm_count meta = Z.of_nat (length results)
  | None => True
  end.
Proof.
  split.
  - destruct (persisted (find_main w v)) as [[meta results]|] eqn:H; [|exact I].
    unfold find_main in H.
    destruct (a_positional v) as [|pattern [|? ?]]; simpl in H; try discriminate.
    eapply find_run_persisted; eauto.
  - destruct (persisted (grep_main w v)) as [[meta results]|] eqn:H; [|exact I].
    apply grep_main_persisted in H. tauto.
Qed.

(** C9: whenever the grep tool reaches [persist_results], the
    [file_count] of the metadata is the number of distinct paths among the
    matches it passes; it is at most [count], and it is 0 exactly when
    [count] is 0. *)
Theorem persisted_file_count_distinct (w : world) (v : argv) :
  match persisted (grep_main w v) with
  | Some (meta, results) =>
      gm_file_count meta
        = Z.of_nat (length (remove_dups (map h_path results))) /\
      gm_file_count meta <= gm_count meta /\
      (gm_file_count meta = 0 <-> gm_count meta = 0)
  | None => True
  end.
Proof.
  destruct (persisted (grep_main w v)) as [[meta results]|] eqn:H; [|exact I].
  apply grep_main_persisted in H as [Hc Hf].
  rewrite size_list_to_set_distinct in Hf. rewrite Hc, Hf.
  pose proof (remove_dups_length (map h_path results)) as Hle.
  rewrite length_map in Hle.
  pose proof (remove_dups_nil (map h_path results)) as Hnil.
  split; [reflexivity|]. split; [lia|]. split; intros Hz.
  - assert (Hl : remove_dups (map h_path results) = [])
      by (apply length_zero_iff_nil; lia).
    apply Hnil in Hl. destruct results; [reflexivity|discriminate].
  - assert (Hr : results = []) by (apply length_zero_iff_nil; lia).
    subst results. reflexivity.
Qed.

(** A run of each producer that reaches [persist_results]. *)
Example find_persists_two :
  persisted (find_main Demo.producer_world (Demo.producer_argv ["*.txt"]))
  = Some ({| fm_tool := "ai_agent_tool_find"; fm_timestamp := "2025-01-01T00:00:00";
             fm_query := "*.txt"; fm_root := "/repo"; fm_regex := false;
             fm_count := 2 |},
          ["/repo/a.txt"; "/repo/b.txt"]).
Proof. reflexivity. Qed.

Example grep_counts_two_files :
  option_map (fun mr => (gm_count (fst mr), gm_file_count (fst mr), length (snd mr)))
    (persisted (grep_main Demo.producer_world (Demo.producer_argv ["x"])))
  = Some (3, 2, 3%nat).
Proof. vm_compute. reflexivity. Qed.

End ProducerFacts.

(** ** Exit status *)

Section ExitStatus.


(** The failures the claim lists do give status 1 with the message on
    the error stream. *)
Example missing_run_exits_1 :
  View.main Demo.view_world (Demo.view_argv (Some "nope") None None false)
  = {| exit_code := 1;
       stdout := ["--- AI Agent Tool: Result Viewer ---"];
       stderr := ["Error loading run: Run ID not found: nope"] |}.
Proof. reflexivity. Qed.

Example invalid_date_exits_1 :
  Copy.main Demo.copy_world (Demo.copy_argv (Some "01/02/2025") None)
  = {| exit_code := 1; stdout := [];
       stderr := ["Error: Invalid date format. Use YYYY-MM-DD."] |}.
Proof. reflexivity. Qed.

End ExitStatus.

(** ** More on the viewer's window *)

Section ViewPaging.

Import View Paging.

Context {A : Type}.

Lemma enumerate_lookup (l : list A) :
  forall (start i : Z) (x : A),
    In (i, x) (enumerate l start) <->
    exists k : nat, i = start + Z.of_nat k /\ nth_error l k = Some x.
Proof.
  induction l as [|y l IH]; intros start i x; simpl.
  - split; [tauto|]. intros (k & _ & H). destruct k; discriminate.
  - rewrite IH. split.
    + intros [[= <- <-]|(k & -> & Hk)].
      * exists O. split; [lia|reflexivity].
      * exists (S k). split; [lia|assumption].
    + intros ([|k] & -> & Hk); simpl in Hk.
      * left. injection Hk as ->. f_equal. lia.
      * right. exists k. split; [lia|assumption].
Qed.

Lemma windows_join (a : args) (lim' : Z) (rs : list A) :
  full a = false -> 0 <= offset a -> 0 <= limit a -> 0 <= lim' ->
  display_results a rs
    ++ display_results (with_window a (offset a + limit a) lim') rs
  = display_results (with_window a (offset a) (limit a + lim')) rs.
Proof.
  intros Hf Ho Hl Hl'. unfold display_results, with_window.
  cbn [full offset limit]. rewrite Hf.
  rewrite !slice_window by lia.
  rewrite !Z2Nat.inj_add by lia.
  rewrite <- (drop_drop rs (Z.to_nat (limit a)) (Z.to_nat (offset a))).
  apply take_take_drop.
Qed.

(** X1: consecutive windows join: the page at [offset] followed by the page
    the suggestion points to is the page at [offset] of the joint length;
    and the window together with the reported remainder accounts for
    every result from [offset] on. *)
Theorem view_pages_compose (a : args) (lim' : Z) (rs : list A) :
  full a = false -> 0 <= offset a -> 0 <= limit a -> 0 <= lim' ->
  display_results a rs
    ++ display_results (with_window a (offset a + limit a) lim') rs
  = display_results (with_window a (offset a) (limit a + lim')) rs /\
  Z.of_nat (length (display_results a rs)) + remaining a rs
  = Z.max 0 (Z.of_nat (length rs) - offset a).
Proof.
  intros Hf Ho Hl Hl'. split; [apply windows_join; assumption|].
  unfold display_results. rewrite Hf.
  rewrite slice_window, window_length by lia.
  unfold remaining, more_count. rewrite Hf. cbn [negb andb].
  destruct (Z.of_nat (length rs) >? offset a + limit a) eqn:E; lia.
Qed.

(** X2: without [--full] and with a non-negative offset, the number printed
    in front of an item is its position in the result list, counted from
    1, and the items shown are exactly those numbered [offset+1] to
    [offset+limit]. *)
Theorem view_numbering (a : args) (rs : list A) (i : Z) (x : A) :
  full a = false -> 0 <= offset a -> 0 < limit a ->
  (In (i, x) (enumerate (display_results a rs) (offset a + 1)) <->
   offset a < i <= offset a + limit a /\
   nth_error rs (Z.to_nat (i - 1)) = Some x).
Proof.
  intros Hf Ho Hl. unfold display_results. rewrite Hf.
  rewrite slice_window by lia. rewrite enumerate_lookup. split.
  - intros (k & -> & Hk).
    rewrite nth_error_firstn in Hk.
    destruct (k <? Z.to_nat (limit a))%nat eqn:E; [|discriminate].
    apply Nat.ltb_lt in E. rewrite nth_error_skipn in Hk.
    split; [lia|]. rewrite <- Hk. f_equal. lia.
  - intros [Hi Hx]. exists (Z.to_nat (i - 1 - offset a)). split; [lia|].
    rewrite nth_error_firstn.
    destruct (Z.to_nat (i - 1 - offset a) <? Z.to_nat (limit a))%nat eqn:E.
    + rewrite nth_error_skipn, <- Hx. f_equal. lia.
    + apply Nat.ltb_ge in E. lia.
Qed.

(** X3: a negative offset counts from the end only while [offset + limit]
    is negative too; the "more" line then reports more results than the
    run has. Once [offset + limit] reaches 0, a limit within the length
    of the list shows nothing. *)
Theorem view_negative_offset (a : args) (rs : list A) :
  full a = false ->
  - Z.of_nat (length rs) <= offset a < 0 ->
  0 < limit a ->
  (offset a + limit a < 0 ->
     display_results a rs
       = firstn (Z.to_nat (limit a))
                (skipn (Z.to_nat (Z.of_nat (length rs) + offset a)) rs) /\
     Z.of_nat (length rs) < remaining a rs) /\
  (0 <= offset a + limit a -> limit a <= Z.of_nat (length rs) ->
     display_results a rs = []).
Proof.
  intros Hf Ho Hl. unfold display_results, remaining, more_count. rewrite Hf.
  cbn [negb andb]. unfold slice, clamp_index.
  set (len := Z.of_nat (length rs)) in *.
  destruct (offset a <? 0) eqn:E1; [|lia].
  rewrite (Z.max_r 0 (offset a + len)) by lia. split.
  - intros Hneg. destruct (offset a + limit a <? 0) eqn:E2; [|lia]. split.
    + rewrite (Z.max_r 0 (offset a + limit a + len)) by lia.
      f_equal; [lia|]. f_equal. lia.
    + destruct (len >? offset a + limit a) eqn:E3; lia.
  - intros Hpos Hlim. destruct (offset a + limit a <? 0) eqn:E2; [lia|].
    rewrite Z.min_l by lia.
    replace (Z.to_nat (offset a + limit a - (offset a + len))) with O by lia.
    reflexivity.
Qed.

End ViewPaging.

Lemma view_pages_compose_witness :
  View.display_results (Demo.view_args 10 0 false) (Demo.range 25)
    ++ View.display_results
         (Paging.with_window (Demo.view_args 10 0 false) (0 + 10) 10) (Demo.range 25)
  = View.display_results
      (Paging.with_window (Demo.view_args 10 0 false) 0 (10 + 10)) (Demo.range 25) /\
  Z.of_nat (length (View.display_results (Demo.view_args 10 0 false) (Demo.range 25)))
    + View.remaining (Demo.view_args 10 0 false) (Demo.range 25)
  = Z.max 0 (Z.of_nat (length (Demo.range 25)) - 0).
Proof.
  apply (view_pages_compose (Demo.view_args 10 0 false) 10 (Demo.range 25));
    [reflexivity | simpl; lia | simpl; lia | lia].
Defined.

Lemma view_numbering_witness :
  In (12, 11) (View.enumerate
                 (View.display_results (Demo.view_args 10 10 false) (Demo.range 25))
                 (10 + 1)) <->
  10 < 12 <= 10 + 10 /\ nth_error (Demo.range 25) (Z.to_nat (12 - 1)) = Some 11.
Proof.
  apply (view_numbering (Demo.view_args 10 10 false) (Demo.range 25) 12 11);
    [reflexivity | simpl; lia | simpl; lia].
Defined.

Lemma view_negative_offset_witness :
  (-5 + 3 < 0 ->
     View.display_results (Demo.view_args 3 (-5) false) (Demo.range 10)
       = firstn (Z.to_nat 3)
                (skipn (Z.to_nat (Z.of_nat (length (Demo.range 10)) + -5)) (Demo.range 10)) /\
     Z.of_nat (length (Demo.range 10))
       < View.remaining (Demo.view_args 3 (-5) false) (Demo.range 10)) /\
  (0 <= -5 + 3 -> 3 <= Z.of_nat (length (Demo.range 10)) ->
     View.display_results (Demo.view_args 3 (-5) false) (Demo.range 10) = []).
Proof.
  apply (view_negative_offset (Demo.view_args 3 (-5) false) (Demo.range 10));
    [reflexivity | simpl; lia | simpl; lia].
Defined.

(** The last five results asked for three at a time, and the last three
    asked for ten at a time. *)
Example view_from_the_end :
  View.display_results (Demo.view_args 3 (-5) false) (Demo.range 10) = [5; 6; 7] /\
  View.remaining (Demo.view_args 3 (-5) false) (Demo.range 10) = 12 /\
  View.display_results (Demo.view_args 10 (-3) false) (Demo.range 10) = [].
Proof. repeat split. Qed.

(** ** More on the blocks of an export *)

Section BlockText.

Import Handover Markdown.

Lemma join_app (l1 l2 : list string) : join (l1 ++ l2) = join l1 +:+ join l2.
Proof.
  induction l1 as [|x l1 IH]; [reflexivity|].
  change (x +:+ join (l1 ++ l2) = (x +:+ join l1) +:+ join l2).
  rewrite IH, string_app_assoc. reflexivity.
Qed.

Lemma strip_nonempty_guard (s : string) :
  negb (String.eqb s "") && strip_nonempty s = strip_nonempty s.
Proof. destruct s; reflexivity. Qed.

(** One pass of the response loop appends the text of the part. *)
Lemma add_response_text (acc : string) (r : json) (v : string) :
  value_text r = Some v -> add_response acc r = Ok (acc +:+ v).
Proof.
  destruct r as [| | | | |fields]; try discriminate.
  unfold value_text, add_response, mbind, result_bind, bind. cbn [get].
  destruct (assoc "value" fields) as [x|].
  - destruct x as [|b|q|s|items|fs]; cbn [truthy].
    + intros [= <-]. rewrite string_app_nil_r. reflexivity.
    + destruct b; [discriminate|].
      intros [= <-]. rewrite string_app_nil_r. reflexivity.
    + destruct (negb (Z.eqb (QArith_base.Qnum q) 0)); [discriminate|].
      intros [= <-]. rewrite string_app_nil_r. reflexivity.
    + intros [= <-]. destruct s; [rewrite string_app_nil_r|]; reflexivity.
    + destruct items; [|discriminate].
      intros [= <-]. rewrite string_app_nil_r. reflexivity.
    + destruct fs; [|discriminate].
      intros [= <-]. rewrite string_app_nil_r. reflexivity.
  - intros [= <-]. cbn [truthy String.eqb negb]. rewrite string_app_nil_r. reflexivity.
Qed.

(** The response loop appends the text of each part, in order. *)
Lemma add_response_fold (resps : list json) (vs : list string) :
  Forall2 (fun r v => value_text r = Some v) resps vs ->
  forall acc, foldM add_response acc resps = Ok (acc +:+ join vs).
Proof.
  induction 1 as [|r v resps vs Hr _ IH]; intros acc; simpl.
  - rewrite string_app_nil_r. reflexivity.
  - unfold mbind, result_bind, bind.
    rewrite (add_response_text acc r v Hr), IH.
    change (join (v :: vs)) with (v +:+ join vs).
    rewrite string_app_assoc. reflexivity.
Qed.

(** X5: the block of a request: the user heading and the message; then,
    when the response parts together hold more than white space, the
    assistant heading and their texts joined in order; then the rule.
    Other keys of the request and of its parts are ignored. *)
Theorem build_block_text
    (w : world) (fields message_fields : list (string * json))
    (text : string) (resps : list json) (vs : list string) :
  assoc "message" fields = Some (JObj message_fields) ->
  assoc "text" message_fields = Some (JStr text) ->
  assoc "response" fields = Some (JArr resps) ->
  Forall2 (fun r v => value_text r = Some v) resps vs ->
  build_block w (JObj fields)
  = Ok (user_heading +:+ text
        +:+ (if strip_nonempty (join vs)
             then assistant_heading +:+ join vs else "")
        +:+ rule).
Proof.
  intros Hm Ht Hr Hv. unfold build_block, mbind, result_bind, bind.
  simpl. rewrite Hm. simpl. rewrite Ht, Hr. simpl.
  rewrite (add_response_fold resps vs Hv "").
  change ("" +:+ join vs) with (join vs).
  rewrite strip_nonempty_guard.
  destruct (strip_nonempty (join vs)); reflexivity.
Qed.

Lemma build_block_text_witness :
  build_block (Demo.world_of (Ok JNull)) (Demo.request "hello" ["a"; ""; "b"])
  = Ok (user_heading +:+ "hello"
        +:+ (if strip_nonempty (join ["a"; ""; "b"])
             then assistant_heading +:+ join ["a"; ""; "b"] else "")
        +:+ rule).
Proof.
  apply (build_block_text (Demo.world_of (Ok JNull))
           [("message", JObj [("text", JStr "hello")]);
            ("response", JArr (map (fun v => JObj [("value", JStr v)]) ["a"; ""; "b"]))]
           [("text", JStr "hello")] "hello"
           (map (fun v => JObj [("value", JStr v)]) ["a"; ""; "b"]) ["a"; ""; "b"]);
    [reflexivity | reflexivity | reflexivity |].
  repeat constructor.
Defined.

End BlockText.

Section BlockSequence.

Import Handover Markdown.

Lemma build_blocks_fold_iff (w : world) (reqs : list json) :
  forall acc blocks,
    foldM (fun blocks req => b ← build_block w req; Ok (blocks ++ [b])) acc reqs
      = Ok blocks <->
    exists bs, blocks = acc ++ bs /\
               Forall2 (fun req b => build_block w req = Ok b) reqs bs.
Proof.
  induction reqs as [|req reqs IH]; intros acc blocks; simpl.
  - split.
    + intros [= <-]. exists []. rewrite app_nil_r. split; [reflexivity|constructor].
    + intros (bs & -> & H). inversion H. rewrite app_nil_r. reflexivity.
  - unfold mbind, result_bind, bind. split.
    + destruct (build_block w req) as [b|] eqn:Hb; [|discriminate].
      intros H. apply IH in H as (bs & -> & Hall).
      exists (b :: bs). rewrite <- app_assoc. split; [reflexivity|].
      constructor; assumption.
    + intros (bs & -> & H). inversion H as [|? b ? bs' Hb Hrest]; subst.
      rewrite Hb. apply IH. exists bs'. rewrite <- app_assoc. auto.
Qed.

Lemma build_block_framed (w : world) (req : json) (b : string) :
  build_block w req = Ok b -> exists body, b = user_heading +:+ body +:+ rule.
Proof.
  unfold build_block, mbind, result_bind, bind.
  destruct (get req "message" (JObj [])) as [mo|]; [|discriminate].
  destruct (get mo "text" (JStr "")) as [m|]; [|discriminate].
  destruct (get req "response" (JArr [])) as [rs|]; [|discriminate].
  destruct (iter rs) as [items|]; [|discriminate].
  destruct (foldM add_response "" items) as [full|]; [|discriminate].
  intros [= <-].
  destruct (negb (String.eqb full "") && strip_nonempty full).
  - exists (fmt w m +:+ assistant_heading +:+ full).
    rewrite !string_app_assoc. reflexivity.
  - exists (fmt w m). reflexivity.
Qed.

Lemma build_blocks_arr (w : world) (reqs : list json) :
  build_blocks w (JArr reqs)
  = foldM (fun blocks req => b ← build_block w req; Ok (blocks ++ [b])) [] reqs.
Proof. reflexivity. Qed.

(** X6: the blocks of a request list are the blocks of its requests, one
    each and in order, and the list is built only if every request can
    be; each block opens with the user heading and closes with the rule. *)
Theorem blocks_one_per_request (w : world) (reqs : list json) (blocks : list string) :
  build_blocks w (JArr reqs) = Ok blocks <->
  Forall2 (fun req b =>
             build_block w req = Ok b /\
             exists body, b = user_heading +:+ body +:+ rule)
          reqs blocks.
Proof.
  rewrite build_blocks_arr, build_blocks_fold_iff. simpl. split.
  - intros (bs & -> & H). induction H; constructor; auto.
    split; [assumption|]. eapply build_block_framed; eauto.
  - intros H. exists blocks. split; [reflexivity|].
    induction H as [|? ? ? ? [Hb _]]; constructor; auto.
Qed.

Lemma foldM_build_raises (w : world) (reqs : list json) (r : json) :
  In r reqs ->
  (forall b, build_block w r <> Ok b) ->
  forall acc,
    exists e,
      foldM (fun blocks req => b ← build_block w req; Ok (blocks ++ [b])) acc reqs
      = Raise e.
Proof.
  intros Hin Hbad. induction reqs as [|req reqs IH]; [destruct Hin|].
  intros acc. simpl. unfold mbind, result_bind, bind.
  destruct (build_block w req) as [b|e] eqn:Hb; [|exists e; reflexivity].
  destruct Hin as [->|Hin]; [exfalso; eapply Hbad; eauto|].
  apply IH. assumption.
Qed.

(** X7: one request that is not an object is enough for the whole export to
    give up before it writes anything. *)
Theorem malformed_request_writes_nothing
    (w : world) (output_file : Path) (chunk_size : Z)
    (fields : list (string * json)) (reqs : list json) (r : json) :
  read_json w = Ok (JObj fields) ->
  assoc "requests" fields = Some (JArr reqs) ->
  In r reqs ->
  (forall f, r <> JObj f) ->
  let o := export_to_markdown w output_file chunk_size in
  returned o = [] /\ written o = [] /\ length (printed o) = 1%nat.
Proof.
  intros Hread Hreq Hin Hbad o. subst o.
  unfold export_to_markdown, export_plan. rewrite Hread.
  unfold mbind, result_bind, bind. simpl. rewrite Hreq.
  destruct reqs as [|r0 reqs0] eqn:Hreqs; [destruct Hin|]. rewrite <- Hreqs in *.
  assert (Ht : truthy (JArr reqs) = true) by (rewrite Hreqs; reflexivity).
  rewrite Ht. simpl. rewrite build_blocks_arr.
  destruct (foldM_build_raises w reqs r Hin) with (acc := @nil string) as [e He].
  - intros b Hb. unfold build_block, mbind, result_bind, bind in Hb.
    destruct r; simpl in Hb; try discriminate. eapply Hbad; eauto.
  - rewrite He. simpl. auto.
Qed.

Lemma malformed_request_writes_nothing_witness :
  let o := export_to_markdown
             (Demo.world_of
                (Ok (JObj [("requests",
                            JArr [Demo.request "a" ["ok"]; JStr "oops"])])))
             Demo.chat_out 500 in
  returned o = [] /\ written o = [] /\ length (printed o) = 1%nat.
Proof.
  apply (malformed_request_writes_nothing
           (Demo.world_of
              (Ok (JObj [("requests", JArr [Demo.request "a" ["ok"]; JStr "oops"])])))
           Demo.chat_out 500
           [("requests", JArr [Demo.request "a" ["ok"]; JStr "oops"])]
           [Demo.request "a" ["ok"]; JStr "oops"] (JStr "oops"));
    [reflexivity | reflexivity | right; left; reflexivity | discriminate].
Defined.

End BlockSequence.

(** ** More on the files of an export *)

Section ExportWrites.

Import Handover Markdown.

Lemma write_all_written (w : world) (files : list File) :
  Forall (fun f => write_file w (f_path f) = Written) files ->
  forall acc, write_all w files acc = (Ok (map f_path files), acc ++ files).
Proof.
  induction 1 as [|f files Hf _ IH]; intros acc; simpl.
  - rewrite app_nil_r. reflexivity.
  - rewrite Hf, IH, <- app_assoc. reflexivity.
Qed.

Lemma write_all_open_fails (w : world) (done : list File) (f : File)
    (rest : list File) (e : string) :
  Forall (fun g => write_file w (f_path g) = Written) done ->
  write_file w (f_path f) = OpenFails e ->
  forall acc, write_all w (done ++ f :: rest) acc = (Raise e, acc ++ done).
Proof.
  intros Hdone Hf. induction Hdone as [|g done Hg _ IH]; intros acc; simpl.
  - rewrite Hf, app_nil_r. reflexivity.
  - rewrite Hg, IH, <- app_assoc. reflexivity.
Qed.

Lemma write_all_write_fails (w : world) (done : list File) (f : File)
    (rest : list File) (e kept : string) :
  Forall (fun g => write_file w (f_path g) = Written) done ->
  write_file w (f_path f) = WriteFails e kept ->
  forall acc,
    write_all w (done ++ f :: rest) acc
    = (Raise e, acc ++ done ++ [left_behind f kept]).
Proof.
  intros Hdone Hf. induction Hdone as [|g done Hg _ IH]; intros acc; simpl.
  - rewrite Hf. reflexivity.
  - rewrite Hg, IH, <- app_assoc. reflexivity.
Qed.

(** The paths on disk are a leading part of the planned paths. *)
Lemma write_all_paths (w : world) (files : list File) :
  forall acc,
    exists rest,
      map f_path acc ++ map f_path files
      = map f_path (snd (write_all w files acc)) ++ rest.
Proof.
  induction files as [|f files IH]; intros acc; simpl.
  - exists []. reflexivity.
  - destruct (write_file w (f_path f)) as [|e|e kept].
    + destruct (IH (acc ++ [f])) as (rest & Hrest). exists rest.
      rewrite map_app, <- app_assoc in Hrest. simpl in Hrest.
      destruct (write_all w files (acc ++ [f])) as [[created|e] fs]; exact Hrest.
    + exists (f_path f :: map f_path files). reflexivity.
    + exists (map f_path files). simpl.
      rewrite map_app, <- app_assoc. reflexivity.
Qed.

Lemma written_paths_prefix
    (w : world) (output_file : Path) (chunk_size : Z) (files : list File) :
  export_plan w output_file chunk_size = Ok files ->
  exists rest,
    map f_path files
    = map f_path (written (export_to_markdown w output_file chunk_size)) ++ rest.
Proof.
  intros Hplan. unfold export_to_markdown. rewrite Hplan.
  destruct (write_all_paths w files []) as (rest & Hrest).
  exists rest.
  destruct (write_all w files []) as [[created|e] fs]; exact Hrest.
Qed.

(** X8: what a call leaves on disk, once its files are planned. When every
    write works, the planned files, whose paths it returns. Otherwise the
    planned files before the first failing one, complete, and then
    nothing if [open] failed, or the failing file itself with whatever
    reached it if [open] had made or emptied it before the failure; the
    later files are not touched, the failure is printed and the empty
    list returned. In each case the paths on disk are a leading part of
    the planned paths. *)
Theorem write_failure_leaves_prefix
    (w : world) (output_file : Path) (chunk_size : Z) (files : list File) :
  export_plan w output_file chunk_size = Ok files ->
  let o := export_to_markdown w output_file chunk_size in
  (Forall (fun f => write_file w (f_path f) = Written) files ->
     written o = files /\ returned o = map f_path files /\ printed o = []) /\
  (forall done f rest e,
      files = done ++ f :: rest ->
      Forall (fun g => write_file w (f_path g) = Written) done ->
      (write_file w (f_path f) = OpenFails e ->
         written o = done /\ returned o = [] /\
         printed o = ["Failed to export chat: " +:+ e]) /\
      (forall kept,
          write_file w (f_path f) = WriteFails e kept ->
          written o = done ++ [left_behind f kept] /\ returned o = [] /\
          printed o = ["Failed to export chat: " +:+ e])) /\
  (exists rest, map f_path files = map f_path (written o) ++ rest).
Proof.
  intros Hplan o. split; [|split].
  - intros Hall. subst o. unfold export_to_markdown.
    rewrite Hplan, (write_all_written w files Hall). auto.
  - intros done f rest e -> Hdone. split.
    + intros Hf. subst o. unfold export_to_markdown.
      rewrite Hplan, (write_all_open_fails w done f rest e Hdone Hf). auto.
    + intros kept Hf. subst o. unfold export_to_markdown.
      rewrite Hplan, (write_all_write_fails w done f rest e kept Hdone Hf). auto.
  - exact (written_paths_prefix w output_file chunk_size files Hplan).
Qed.

Lemma write_failure_leaves_prefix_witness :
  let w := Demo.world_failing (Ok (Demo.chat ["a"; "b"; "c"]))
             "vscode_chat_history_part002.md"
             (WriteFails "'utf-8' codec can't encode character" "") in
  let first := flush_chunk w Demo.chat_out 1 (firstn 2 Demo.three_blocks) in
  let second := flush_chunk w Demo.chat_out 2 (skipn 2 Demo.three_blocks) in
  let o := export_to_markdown w Demo.chat_out 20 in
  written o = [first] ++ [left_behind second ""] /\
  returned o = [] /\
  printed o = ["Failed to export chat: " +:+ "'utf-8' codec can't encode character"].
Proof.
  intros w first second.
  refine (proj2 (proj1 (proj2 (write_failure_leaves_prefix w Demo.chat_out 20
                                 [first; second] _))
                   [first] second [] "'utf-8' codec can't encode character" _ _)
            "" _).
  - reflexivity.
  - reflexivity.
  - constructor; [reflexivity|constructor].
  - reflexivity.
Defined.









(** Without a suffix the parts need not be without one: for the name
    ["a."] pathlib gives the part ["a._part001"] the suffix
    ["._part001"]. *)
Example part_of_dotted_name :
  let output_file := {| parent := "out"; name := "a." |} in
  suffix output_file = "" /\ stem output_file = "a." /\
  name (part_path output_file 1) = "a._part001" /\
  suffix (part_path output_file 1) = "._part001" /\
  stem (part_path output_file 1) = "a".
Proof. vm_compute. repeat split. Qed.

End ExportWrites.

(** ** More on the grouping *)

Section Grouping.

Import Handover Partition Markdown.

Variable chunk_size : Z.

(** While everything still fits, the loop never flushes. *)
Lemma chunk_loop_all_fit (blocks : list string) :
  forall idx cur,
    total_lines cur + total_lines blocks <= chunk_size ->
    cur ++ blocks <> [] ->
    map snd (chunk_loop chunk_size blocks idx (total_lines cur) cur) = [cur ++ blocks].
Proof.
  induction blocks as [|block rest IH]; intros idx cur Hfit Hne; simpl.
  - rewrite app_nil_r in *. destruct cur; [congruence|reflexivity].
  - simpl in Hfit. pose proof (total_lines_nonneg rest).
    destruct (total_lines cur + b_lines block >? chunk_size) eqn:E; [lia|].
    simpl. rewrite <- total_lines_snoc, IH.
    + rewrite <- app_assoc. reflexivity.
    + rewrite total_lines_snoc. lia.
    + destruct cur; discriminate.
Qed.

(** X10: the single-file shortcut changes the file name and the header, not
    the grouping: on blocks that fit into one file the chunk-mode loop
    would make the same single chunk. *)
Theorem single_file_same_grouping (blocks : list string) :
  blocks <> [] ->
  total_lines blocks <= chunk_size ->
  map snd (chunk_loop chunk_size blocks 1 0 []) = split chunk_size blocks.
Proof.
  intros Hne Hfit. unfold split.
  destruct (total_lines blocks <=? chunk_size) eqn:E; [|lia].
  apply (chunk_loop_all_fit blocks 1%nat []); simpl; auto.
Qed.

(** When no block fits, every block is flushed by itself. *)
Lemma chunk_loop_none_fit (blocks : list string) :
  Forall (fun b => chunk_size < b_lines b /\ 0 < b_lines b) blocks ->
  forall idx b0,
    0 < b_lines b0 ->
    map snd (chunk_loop chunk_size blocks idx (b_lines b0) [b0])
    = [b0] :: map (fun b => [b]) blocks.
Proof.
  induction 1 as [|block rest [Hbig Hpos] _ IH]; intros idx b0 Hb0; simpl.
  - reflexivity.
  - destruct (b_lines b0 + b_lines block >? chunk_size) eqn:E1; [|lia].
    destruct (b_lines b0 >? 0) eqn:E2; [|lia].
    simpl. rewrite IH by assumption. reflexivity.
Qed.

(** X11: with a [chunk_size] below 5, the least a block can weigh, every
    request gets a file of its own. *)
Theorem tiny_chunk_size_one_block_per_file
    (w : world) (output_file : Path) (requests : json) (blocks : list string) :
  chunk_size < 5 ->
  truthy requests = true ->
  build_blocks w requests = Ok blocks ->
  chunks_of (plan_files w output_file chunk_size blocks) = map (fun b => [b]) blocks /\
  map f_path (plan_files w output_file chunk_size blocks)
  = map (part_path output_file) (seq 1 (length blocks)).
Proof.
  intros Hcs Ht Hb.
  assert (Hshape : blocks <> [] /\ Forall (fun b => 5 <= b_lines b) blocks).
  { unfold build_blocks, mbind, result_bind, bind in Hb.
    destruct (iter requests) as [reqs|] eqn:Hi; [|discriminate].
    apply build_blocks_fold in Hb as (bs & -> & Hlen & Hall).
    pose proof (iter_truthy _ _ Ht Hi). split; [|exact Hall].
    destruct bs; [destruct reqs; simpl in *; congruence|discriminate]. }
  destruct Hshape as [Hne Hall].
  destruct blocks as [|b rest]; [congruence|].
  inversion Hall as [|? ? Hb5 Hrest]; subst.
  assert (Hchunks : map snd (chunk_loop chunk_size (b :: rest) 1 0 [])
                    = map (fun x => [x]) (b :: rest)).
  { simpl. destruct (0 + b_lines b >? chunk_size); simpl;
      (apply chunk_loop_none_fit;
       [eapply Forall_impl; [exact Hrest|]; simpl; intros; lia | lia]). }
  assert (Hmode : (total_lines (b :: rest) <=? chunk_size) = false).
  { apply Z.leb_gt. simpl. pose proof (total_lines_nonneg rest). lia. }
  split.
  - rewrite chunks_of_plan_files. unfold split. rewrite Hmode. exact Hchunks.
  - unfold plan_files. rewrite Hmode. rewrite map_map.
    change (map (fun c => f_path (flush_chunk w output_file (fst c) (snd c)))
                (chunk_loop chunk_size (b :: rest) 1 0 []))
      with (map (fun c => part_path output_file (fst c))
                (chunk_loop chunk_size (b :: rest) 1 0 [])).
    rewrite <- (map_map fst (part_path output_file)), chunk_loop_indices.
    rewrite <- (length_map snd), Hchunks, length_map. reflexivity.
Qed.

End Grouping.

Lemma single_file_same_grouping_witness :
  map snd (Handover.chunk_loop 500 Demo.three_blocks 1 0 [])
  = Handover.split 500 Demo.three_blocks.
Proof.
  apply (single_file_same_grouping 500 Demo.three_blocks);
    [discriminate | vm_compute; discriminate].
Defined.

Lemma tiny_chunk_size_one_block_per_file_witness :
  Handover.chunks_of
    (Handover.plan_files (Demo.world_of (Ok JNull)) Demo.chat_out 0 Demo.three_blocks)
  = map (fun b => [b]) Demo.three_blocks /\
  map Handover.f_path
    (Handover.plan_files (Demo.world_of (Ok JNull)) Demo.chat_out 0 Demo.three_blocks)
  = map (Handover.part_path Demo.chat_out) (seq 1 (length Demo.three_blocks)).
Proof.
  apply (tiny_chunk_size_one_block_per_file 0
           (Demo.world_of (Ok JNull)) Demo.chat_out Demo.three_requests Demo.three_blocks);
    [lia | reflexivity | reflexivity].
Defined.

(** ** Part numbers *)

Section PartNumbers.

Import Handover Markdown.

Lemma to_uint_not_nil (n : nat) : Nat.to_uint n <> Decimal.Nil.
Proof.
  rewrite <- (DecimalNat.Unsigned.of_to n) at 1.
  rewrite DecimalNat.Unsigned.to_of. apply DecimalFacts.unorm_nonnil.
Qed.

Lemma str_nat_digits (n : nat) :
  str_nat n = DecimalString.NilEmpty.string_of_uint (Nat.to_uint n).
Proof.
  unfold str_nat, DecimalString.NilZero.string_of_uint.
  pose proof (to_uint_not_nil n). destruct (Nat.to_uint n); congruence.
Qed.

Lemma read_number_zeros (k : nat) (s : string) :
  read_number (zeros k +:+ s) = read_number s.
Proof.
  induction k as [|k IH]; [reflexivity|].
  unfold read_number in *.
  change (zeros (S k) +:+ s) with (String "0" (zeros k +:+ s)).
  cbn [DecimalString.NilEmpty.uint_of_string].
  destruct (DecimalString.NilEmpty.uint_of_string (zeros k +:+ s)) as [d|];
    destruct (DecimalString.NilEmpty.uint_of_string s) as [d'|];
    simpl in *; try discriminate; try reflexivity.
  injection IH as IH. f_equal. exact IH.
Qed.

(** The sequence number of a part can be read back from its digits,
    padding included: distinct numbers never give the same digits. *)
Lemma read_number_fmt_03d (n : nat) : read_number (fmt_03d n) = Some n.
Proof.
  unfold fmt_03d. rewrite read_number_zeros, str_nat_digits.
  unfold read_number. rewrite DecimalString.NilEmpty.usu. simpl.
  rewrite DecimalNat.Unsigned.of_to. reflexivity.
Qed.

Lemma fmt_03d_inj (i j : nat) : fmt_03d i = fmt_03d j -> i = j.
Proof.
  intros H. apply (f_equal read_number) in H.
  rewrite !read_number_fmt_03d in H. congruence.
Qed.

Lemma string_app_inv_head (a b c : string) : a +:+ b = a +:+ c -> b = c.
Proof.
  induction a as [|x a IH]; [auto|].
  change (String x (a +:+ b) = String x (a +:+ c) -> b = c).
  intros [= H]. auto.
Qed.

Lemma string_app_inv_tail (a b c : string) : a +:+ c = b +:+ c -> a = b.
Proof.
  revert b. induction a as [|x a IH]; intros [|y b] H.
  - reflexivity.
  - apply (f_equal String.length) in H.
    rewrite !string_length_app in H. simpl in H. lia.
  - apply (f_equal String.length) in H.
    rewrite !string_length_app in H. simpl in H. lia.
  - change (String x (a +:+ c) = String y (b +:+ c)) in H.
    injection H as -> H. f_equal. auto.
Qed.

Lemma part_name_inj (output_file : Path) (i j : nat) :
  name (part_path output_file i) = name (part_path output_file j) -> i = j.
Proof.
  rewrite !part_name_numbered. intros H.
  apply string_app_inv_head in H.
  change ("_part" +:+ (fmt_03d i +:+ suffix output_file)
          = "_part" +:+ (fmt_03d j +:+ suffix output_file)) in H.
  apply string_app_inv_head, string_app_inv_tail in H.
  apply fmt_03d_inj. exact H.
Qed.

(** X12: no two files of one export have the same name: a part never
    overwrites another part, however many there are. *)
Theorem export_names_distinct
    (w : world) (output_file : Path) (chunk_size : Z) (blocks : list string) :
  NoDup (map (fun f => name (f_path f))
             (plan_files w output_file chunk_size blocks)).
Proof.
  unfold plan_files. destruct (total_lines blocks <=? chunk_size).
  - apply NoDup_singleton.
  - rewrite map_map.
    change (map (fun c => name (f_path (flush_chunk w output_file (fst c) (snd c))))
                (chunk_loop chunk_size blocks 1 0 []))
      with (map (fun c => name (part_path output_file (fst c)))
                (chunk_loop chunk_size blocks 1 0 [])).
    rewrite <- (map_map fst (fun idx => name (part_path output_file idx))).
    rewrite chunk_loop_indices.
    apply NoDup_fmap_2; [|apply NoDup_seq].
    intros i j. apply part_name_inj.
Qed.

(** The part number survives the padding, so parts 1 to 999 carry
    three digits and later parts their own digits. *)
Example fmt_03d_samples :
  map fmt_03d [1; 42; 999; 1000]%nat = ["001"; "042"; "999"; "1000"].
Proof. reflexivity. Qed.

End PartNumbers.

(** ** The session id of a handover *)

Section SessionId.

Import Session.

Lemma safe_char_keeps (c : ascii) : keeps (if keeps c then c else "_"%char) = true.
Proof. destruct (keeps c) eqn:E; [exact E|reflexivity]. Qed.

(** X13: the sanitised id has the length of the raw one, holds only
    letters, digits, [-] and [_] (so no separator and no dot), and
    sanitising it again changes nothing. *)
Theorem safe_id_is_safe (raw_session_id : string) :
  String.length (safe_id raw_session_id) = String.length raw_session_id /\
  Forall (fun c => keeps c = true /\
                   c <> "/"%char /\ c <> "\"%char /\ c <> "."%char /\ c <> " "%char)
         (list_ascii_of_string (safe_id raw_session_id)) /\
  safe_id (safe_id raw_session_id) = safe_id raw_session_id.
Proof.
  induction raw_session_id as [|c s (Hlen & Hall & Hidem)];
    cbn [safe_id String.length list_ascii_of_string].
  - repeat split. constructor.
  - split; [congruence|]. split.
    + constructor; [|exact Hall].
      pose proof (safe_char_keeps c) as Hk. split; [exact Hk|].
      repeat split; intros E; rewrite E in Hk; vm_compute in Hk; discriminate.
    + rewrite Hidem, safe_char_keeps. reflexivity.
Qed.

Lemma latest_from_spec (cs : list candidate) :
  forall best,
    let r := latest_from best cs in
    In r (best :: cs) /\ snd best <= snd r /\
    forall c, In c cs -> snd c <= snd r.
Proof.
  induction cs as [|c cs IH]; intros best; simpl.
  - split; [auto|]. split; [lia|tauto].
  - destruct (IH (if snd best <? snd c then c else best)) as (Hin & Hle & Hall).
    destruct (snd best <? snd c) eqn:E.
    + apply Z.ltb_lt in E. split; [tauto|]. split; [lia|].
      intros c' [<-|Hc']; auto.
    + apply Z.ltb_ge in E. split; [simpl in Hin; tauto|]. split; [lia|].
      intros c' [<-|Hc']; [lia|auto].
Qed.

(** X14: the derived id is the folder name, or the stem of a spec file of a
    search path that exists: one the explicit glob found, or one the broad
    glob found when the explicit one found nothing; and no file of that
    glob is more recent. *)
Theorem session_id_is_latest_spec (source_name : string) (search_paths : list listing) :
  let r := search_specs source_name search_paths in
  r = source_name \/
  exists base cands t,
    In base search_paths /\ l_exists base = true /\
    (explicit_specs base = Ok cands \/
     (explicit_specs base = Ok [] /\ broad_specs base = Ok cands)) /\
    In (r, t) cands /\
    forall c, In c cands -> snd c <= t.
Proof.
  induction search_paths as [|base rest IH]; simpl; [left; reflexivity|].
  assert (Hrest : search_specs source_name rest = source_name \/
                  exists base0 cands t,
                    In base0 (base :: rest) /\ l_exists base0 = true /\
                    (explicit_specs base0 = Ok cands \/
                     (explicit_specs base0 = Ok [] /\ broad_specs base0 = Ok cands)) /\
                    In (search_specs source_name rest, t) cands /\
                    forall c, In c cands -> snd c <= t).
  { destruct IH as [IH|(b & cands & t & Hin & H)]; [left; exact IH|].
    right. exists b, cands, t. split; [right; exact Hin|exact H]. }
  destruct (l_exists base) eqn:Hex; simpl; [|exact Hrest].
  assert (Hpick : forall c cs,
             In (fst (latest_from c cs), snd (latest_from c cs)) (c :: cs) /\
             forall c', In c' (c :: cs) -> snd c' <= snd (latest_from c cs)).
  { intros c cs. destruct (latest_from_spec cs c) as (Hin & Hle & Hall).
    split; [rewrite <- surjective_pairing; exact Hin|].
    intros c' [<-|Hc']; auto. }
  destruct (explicit_specs base) as [[|c cs]|e] eqn:He; [| |exact Hrest].
  - destruct (broad_specs base) as [[|c cs]|e] eqn:Hb; [exact Hrest| |exact Hrest].
    right. exists base, (c :: cs), (snd (latest_from c cs)).
    destruct (Hpick c cs) as [Hin Hmax]. auto 10.
  - right. exists base, (c :: cs), (snd (latest_from c cs)).
    destruct (Hpick c cs) as [Hin Hmax]. auto 10.
Qed.

(** X15: the id falls back to the folder name when each search path
    is missing, or its explicit glob fails, or finds
    nothing while the broad glob fails or finds nothing. A failing
    explicit glob leaves the broad one untried. *)
Theorem session_id_fallback (source_name : string) (search_paths : list listing) :
  Forall (fun base =>
            l_exists base = false \/
            (exists e, explicit_specs base = Raise e) \/
            (explicit_specs base = Ok [] /\
             ((exists e, broad_specs base = Raise e) \/ broad_specs base = Ok [])))
         search_paths ->
  search_specs source_name search_paths = source_name.
Proof.
  induction 1 as [|base rest Hbase _ IH]; simpl; [reflexivity|].
  destruct Hbase as [->|[[e ->]|[-> [[e ->]| ->]]]]; simpl; try exact IH;
    destruct (l_exists base); exact IH.
Qed.

End SessionId.

Lemma session_id_fallback_witness :
  Session.search_specs "notes"
    [ {| Session.l_exists := true;
         Session.explicit_specs := Raise "PermissionError";
         Session.broad_specs := Ok [("MY_SPEC", 5)] |};
      {| Session.l_exists := false;
         Session.explicit_specs := Ok [("CODE_IMPLEMENTATION_SPEC_1", 9)];
         Session.broad_specs := Ok [] |} ]
  = "notes".
Proof.
  apply (session_id_fallback "notes").
  constructor; [|constructor; [|constructor]].
  - right. left. exists "PermissionError". reflexivity.
  - left. reflexivity.
Defined.

(** Two explicit specs with the same time: the one listed first; and a
    later one wins. *)
Example session_id_examples :
  Session.search_specs "notes"
    [ {| Session.l_exists := true;
         Session.explicit_specs := Ok [("CODE_IMPLEMENTATION_SPEC_a", 7);
                                       ("CODE_IMPLEMENTATION_SPEC_b", 7)];
         Session.broad_specs := Ok [] |} ]
  = "CODE_IMPLEMENTATION_SPEC_a" /\
  Session.search_specs "notes"
    [ {| Session.l_exists := true;
         Session.explicit_specs := Ok [];
         Session.broad_specs := Ok [("X_SPEC_old", 1); ("X_SPEC_new", 2)] |} ]
  = "X_SPEC_new" /\
  Session.safe_id "my spec/v1.2" = "my_spec_v1_2".
Proof. repeat split. Qed.

(** ** The VS Code handover *)

Section HandoverRun.

Import Session.





(** Every set of arguments is what the parser makes of some command
    line. *)
Lemma parse_args_onto (v : argv) : exists c, parse_args c = Some v.
Proof.
  exists {| c_positional := match a_source_path v with Some p => [p] | None => [] end;
            c_session_id := match a_session_id v with Some s => Value s | None => Absent end;
            c_target_root := match a_target_root v with Some s => Value s | None => Absent end;
            c_no_chat := a_no_chat v; c_with_files := a_with_files v;
            c_dry_run := a_dry_run v; c_force := a_force v; c_unknown := [] |}.
  destruct v as [[p|] [sid|] [root|] ? ? ? ?]; reflexivity.
Qed.


(** A second positional argument, and a [--name] that nothing follows:
    status 2, and nothing is looked at. *)
Example handover_rejects_command_line :
  exit_code (process (main (Samples.session_world (Ok (JObj [])))
                        (Samples.session_cli ["a"; "b"]))) = 2 /\
  main (Samples.session_world (Ok (JObj [])))
    {| c_positional := []; c_session_id := Lacking; c_target_root := Absent;
       c_no_chat := false; c_with_files := false; c_dry_run := false;
       c_force := false; c_unknown := [] |}
  = {| process :=
         {| exit_code := 2; stdout := [];
            stderr := ["usage: ai_agent_tool_vscode_handover.py";
                       "ai_agent_tool_vscode_handover.py: error: invalid arguments"] |};
       made_dir := None; staged := None; chat := None |}.
Proof. split; reflexivity. Qed.

Lemma export_no_requests (hw : Handover.world) (output_file : Handover.Path)
    (chunk_size : Z) (fields : list (string * json)) :
  Handover.read_json hw = Ok (JObj fields) ->
  assoc "requests" fields = None \/ assoc "requests" fields = Some (JArr []) ->
  Handover.export_to_markdown hw output_file chunk_size
  = {| Handover.returned := []; Handover.written := []; Handover.printed := [] |}.
Proof.
  intros Hread Hreq. unfold Handover.export_to_markdown, Handover.export_plan.
  rewrite Hread. unfold mbind, result_bind, bind.
  rewrite (get_requests_missing fields Hreq). reflexivity.
Qed.

(** X17: a session without requests is reported like a failed export: the
    run prints the "Extraction Failed" line although the export met no
    failure and printed none, and still ends with status 0. *)
Theorem empty_session_reported_failed
    (w : world) (c : cli) (v : argv) (hw : Handover.world) (fields : list (string * json)) :
  parse_args c = Some v ->
  path_exists w (resolve w (match a_source_path v with Some p => p | None => "." end))
    = true ->
  a_with_files v = false -> a_dry_run v = false -> a_no_chat v = false ->
  (forall d, mkdir w d = Ok tt) ->
  find_chat_json w (repo_root w) = Ok (Some hw) ->
  Handover.read_json hw = Ok (JObj fields) ->
  assoc "requests" fields = None \/ assoc "requests" fields = Some (JArr []) ->
  let r := main w c in
  exit_code (process r) = 0 /\
  In " - Chat: Extraction Failed" (stdout (process r)) /\
  chat r = Some {| Handover.returned := []; Handover.written := [];
                   Handover.printed := [] |}.
Proof.
  intros Hparse Hex Hwf Hdry Hno Hmk Hfind Hread Hreq r.
  assert (Hr : exists out bd,
             r = extract_chat w v out (Some bd) None bd).
  { subst r. unfold main. rewrite Hparse. unfold run_main.
    rewrite Hex, Hwf, Hdry. cbv zeta. cbn [negb].
    rewrite Hmk. eauto. }
  destruct Hr as (out & bd & ->).
  unfold extract_chat. rewrite Hno, Hdry, Hfind. cbn [negb andb]. cbv zeta.
  rewrite (export_no_requests hw _ 500 fields Hread Hreq).
  cbn [process exit_code stdout chat].
  split; [reflexivity|]. split; [|reflexivity].
  apply in_or_app. right. apply in_or_app. left.
  unfold chat_report. cbn [Handover.printed Handover.returned app]. left. reflexivity.
Qed.

End HandoverRun.

Lemma empty_session_reported_failed_witness :
  let r := Session.main (Samples.session_world (Ok (JObj []))) (Samples.session_cli []) in
  exit_code (Session.process r) = 0 /\
  In " - Chat: Extraction Failed" (stdout (Session.process r)) /\
  Session.chat r = Some {| Handover.returned := []; Handover.written := [];
                           Handover.printed := [] |}.
Proof.
  apply (empty_session_reported_failed
           (Samples.session_world (Ok (JObj []))) (Samples.session_cli [])
           Samples.session_argv (Demo.world_of (Ok (JObj []))) []);
    try reflexivity.
  left. reflexivity.
Defined.

(** A session that does not parse: the failure is on standard output,
    the error stream stays empty and the status is 0. *)
Example handover_with_corrupt_chat :
  let r := Session.main (Samples.session_world (Raise "Expecting value"))
             (Samples.session_cli []) in
  Session.process r
  = {| exit_code := 0;
       stdout := ["--- AI Agent Tool: VS Code Handover ---";
                  "Workspace Root: /repo";
                  "Source Context: /repo/_inbox";
                  "Target Bundle:  /repo/_ops/handovers/vscode_sessions/20250101_000000__inbox";
                  "Mode: Chat Extraction Only (Default)";
                  String "010" "... Attempting to extract VS Code Chat History ...";
                  "Failed to export chat: Expecting value";
                  " - Chat: Extraction Failed";
                  "------------------------";
                  "PURPOSE: This tool archives the current VS Code session context (specs, chat logs, scratches) to ensure context conservation.";
                  "TIP: Point this tool at your '_inbox' or 'docs/in_progress' folder."];
       stderr := [] |}.
Proof. vm_compute. reflexivity. Qed.

(** ** The other tools *)

Section OtherTools.

(** X18: [bundle_id] is read from the command line and then left unused:
    the run, and with it the bundle folder, is the same whatever id is
    given. *)
Theorem bundle_id_is_ignored (w : Brain.world) (v : Brain.argv) (bundle_id : option string) :
  Brain.main w
    {| Brain.a_source_id := Brain.a_source_id v; Brain.a_bundle_id := bundle_id;
       Brain.a_brain_root := Brain.a_brain_root v;
       Brain.a_target_root := Brain.a_target_root v;
       Brain.a_dry_run := Brain.a_dry_run v |}
  = Brain.main w v.
Proof. destruct v. reflexivity. Qed.

Lemma collect_fold (files : list Listing.file) :
  forall acc,
    match foldM (fun results f => i ← Listing.info_of f; Ok (results ++ [i])) acc files with
    | Ok results =>
        Forall (fun f => exists st, Listing.f_stat f = Ok st) files /\
        map Listing.i_path results = map Listing.i_path acc ++ map Listing.f_path files
    | Raise e =>
        exists f, In f files /\ Listing.f_stat f = Raise e
    end.
Proof.
  induction files as [|f files IH]; intros acc; simpl.
  - rewrite app_nil_r. split; [constructor|reflexivity].
  - unfold mbind, result_bind, bind, Listing.info_of at 1.
    unfold mbind, result_bind, bind.
    destruct (Listing.f_stat f) as [st|e] eqn:Hst.
    + specialize (IH (acc ++ [{| Listing.i_path := Listing.f_path f;
                                 Listing.i_name := Listing.f_name f;
                                 Listing.i_size := fst st;
                                 Listing.i_mtime := snd st |}])).
      destruct (foldM _ _ files) as [results|e].
      * destruct IH as [Hall Hmap]. split; [constructor; eauto|].
        rewrite Hmap, map_app, <- app_assoc. reflexivity.
      * destruct IH as (g & Hin & Hg). exists g. split; [right; exact Hin|exact Hg].
    + exists f. split; [left; reflexivity|exact Hst].
Qed.

(** X19: without [--date] and [--json], the list tool prints the path of
    every file [list_files] returned, one per line and in that order,
    provided each file can still be examined; if one cannot, nothing is
    printed at all and the status is 1 with that failure as message. *)
Theorem listing_all_or_nothing
    (w : Listing.world) (v : Listing.argv) (root : string) (m : Copy.mode)
    (files : list Listing.file) :
  Listing.a_positional v = [root] ->
  Copy.parse_mode (Listing.a_mode v) = Some m ->
  Listing.a_date v = None ->
  Listing.a_json v = false ->
  Listing.list_files w root
    (match Listing.a_pattern v with Some p => p | None => "*" end)
    (Listing.a_recursive v) (Listing.a_dirs v) = Ok files ->
  let p := Listing.main w v in
  (exit_code p = 0 /\ stderr p = [] /\ stdout p = map Listing.f_path files /\
   Forall (fun f => exists st, Listing.f_stat f = Ok st) files) \/
  (exit_code p = 1 /\ stdout p = [] /\
   exists f e, In f files /\ Listing.f_stat f = Raise e /\ stderr p = ["Error: " +:+ e]).
Proof.
  intros Hpos Hmode Hdate Hjson Hlist p. subst p.
  unfold Listing.main, Listing.collect. rewrite Hpos, Hmode, Hlist, Hdate.
  unfold mbind, result_bind, bind.
  pose proof (collect_fold files []) as Hfold.
  unfold mbind, result_bind, bind in Hfold.
  destruct (foldM _ [] files) as [results|e]; simpl.
  - left. destruct Hfold as [Hall Hmap]. rewrite Hjson. simpl in Hmap. auto.
  - right. destruct Hfold as (f & Hin & Hf). eauto 8.
Qed.

End OtherTools.

Lemma listing_all_or_nothing_witness :
  let p := Listing.main (Samples.listing_world Samples.listed_files) Samples.listing_argv in
  (exit_code p = 0 /\ stderr p = [] /\
   stdout p = map Listing.f_path Samples.listed_files /\
   Forall (fun f => exists st, Listing.f_stat f = Ok st) Samples.listed_files) \/
  (exit_code p = 1 /\ stdout p = [] /\
   exists f e, In f Samples.listed_files /\ Listing.f_stat f = Raise e /\
               stderr p = ["Error: " +:+ e]).
Proof.
  apply (listing_all_or_nothing
           (Samples.listing_world Samples.listed_files) Samples.listing_argv
           "/repo" Copy.Eq_ Samples.listed_files); reflexivity.
Defined.

(** The unreadable second file hides the other two. *)
Example listing_hides_readable_files :
  Listing.main (Samples.listing_world Samples.listed_files) Samples.listing_argv
  = {| exit_code := 1; stdout := [];
       stderr := ["Error: FileNotFoundError: /repo/b.txt"] |}.
Proof. reflexivity. Qed.

Section OtherExitStatus.


End OtherExitStatus.

(** ** The exit status of every tool *)

Section EveryTool.




End EveryTool.


(** ** What the producers persist *)

Section ProducerOrder.

Import Producer.


End ProducerOrder.


(** The grep run above persists its three matches, in the order of the
    search, under the default file pattern. *)
Example grep_persists_in_order :
  option_map (fun mr => (Producer.gm_file_pattern (fst mr),
                         map Producer.h_line_number (snd mr)))
    (Producer.persisted (Producer.grep_main Demo.producer_world (Demo.producer_argv ["x"])))
  = Some ("*", [1; 7; 2]).
Proof. vm_compute. reflexivity. Qed.

(** ** Integers on the command line *)

Section Integers.

Import View Paging.





Lemma count_digits_uint (d : Decimal.uint) :
  count_digits (DecimalString.NilEmpty.string_of_uint d)
  = String.length (DecimalString.NilEmpty.string_of_uint d).
Proof.
  induction d;
    cbn [DecimalString.NilEmpty.string_of_uint count_digits String.length];
    [reflexivity|..];
    (match goal with
     | |- context [is_digit ?c] => change (is_digit c) with true
     end; cbv iota; f_equal; exact IHd).
Qed.

(** The digits [str] counts are the digits [int] counts. *)
Lemma count_digits_str_Z (z : Z) :
  count_digits (str_Z z)
  = (String.length (str_Z z) - (if Z.ltb z 0 then 1 else 0))%nat.
Proof.
  unfold str_Z, DecimalString.NilZero.string_of_int.
  destruct z as [|p|p]; [reflexivity| |]; cbn [Z.to_int Z.ltb Z.compare].
  - rewrite Nat.sub_0_r. unfold DecimalString.NilZero.string_of_uint.
    destruct (Pos.to_uint p) eqn:Hp; [reflexivity|..]; apply count_digits_uint.
  - cbn [count_digits String.length]. change (is_digit "-") with false. cbv iota.
    rewrite Nat.sub_succ, Nat.sub_0_r. unfold DecimalString.NilZero.string_of_uint.
    destruct (Pos.to_uint p) eqn:Hp; [reflexivity|..]; apply count_digits_uint.
Qed.


(** What [int] takes and what it refuses. *)
Example py_int_examples :
  py_int " 12 " = Some 12 /\ py_int "1_000" = Some 1000 /\ py_int "-7" = Some (-7) /\
  py_int "+7" = Some 7 /\ py_int "007" = Some 7 /\
  py_int "ten" = None /\ py_int "" = None /\ py_int "1__0" = None /\
  py_int "_1" = None /\ py_int "1_" = None /\ py_int "- 1" = None /\
  py_int "1 2" = None /\
  py_int (String "028" "5") = None /\ py_int (String "160" "5") = Some 5.
Proof. vm_compute. repeat split. Qed.

(** A literal with more digits than the limit is refused, whatever it
    reads as, and a number with more digits than the limit is not
    printed. *)
Lemma conversion_limit (s : string) (z : Z) :
  (int_max_str_digits < Z.of_nat (count_digits s) -> py_int s = None) /\
  (int_max_str_digits < Z.of_nat (count_digits (str_Z z)) <->
   exists e, str_int z = Raise e).
Proof.
  split.
  - intros Hlong. unfold py_int. destruct (int_literal s); [|reflexivity].
    apply Z.leb_gt in Hlong. rewrite Hlong. reflexivity.
  - unfold str_int. rewrite <- count_digits_str_Z.
    destruct (Z.of_nat (count_digits (str_Z z)) >? int_max_str_digits) eqn:Hlim.
    + rewrite Z.gtb_ltb in Hlim. apply Z.ltb_lt in Hlim. split; eauto.
    + rewrite Z.gtb_ltb, Z.ltb_ge in Hlim. split; [lia|].
      intros [e He]. discriminate.
Qed.

(** When the first shown number is too long to be printed, the run ends
    with status 1 after the five header lines, although the run was
    loaded. *)
Lemma view_unprintable_offset (w : world) (a : args) (d : loaded) (e : string) :
  list_flag a || no_run_id a = false ->
  load_results w (str_option (run_id a)) = Ok d ->
  full a = false ->
  str_int (offset a + 1) = Raise e ->
  run_main w a
  = {| exit_code := 1;
       stdout := [banner;
                  "Run ID:    " +:+ str_option (run_id a);
                  "Tool:      " +:+ meta_tool d;
                  "Query:     " +:+ str_option (meta_query d);
                  "Total:     " +:+ str_nat (length (results d));
                  dashes 24];
       stderr := ["Error loading run: " +:+ e] |}.
Proof.
  intros Hmode Hload Hfull He. unfold run_main. rewrite Hmode. cbv zeta.
  rewrite Hload. unfold show, shown_range. rewrite Hfull.
  cbn [app print_all]. unfold mbind, result_bind, bind. rewrite He.
  reflexivity.
Qed.


End Integers.

